(** * The [Expenses] ledger store of src/server/expenses/index.js

    A shallow embedding of the class [Expenses]: its constructor, the
    connection lifecycle ([connect], [disconnect], [isConnected]), the record
    operations on the two collections and the three event emitters.

    The store is a thin layer over an injected driver ([dependencies.mongoose]).
    The driver is the environment of the program: module [Mongoose] below is a
    reference model of the part of its interface that the store calls.  Every
    call the store makes is also written to a log, so that statements about
    "what the store asks the driver to do" do not depend on that model. *)

From stdpp Require Import gmap strings list sorting pretty.

(** ** JavaScript values

    Numbers are the integers (ports, unix timestamps); [VObject] stands for any
    object that is not an [Error]. *)
Inductive JSValue : Type :=
| VUndefined
| VNull
| VBool (b : bool)
| VNum (n : Z)
| VStr (s : string)
| VError (name message : string)
| VObject.

Global Instance JSValue_eq_dec : EqDecision JSValue.
Proof. solve_decision. Defined.

(** [v instanceof Error] *)
Definition instanceofError (v : JSValue) : bool :=
  match v with VError _ _ => true | _ => false end.

(** The string conversion used by template literals and by [new Error(v)]. *)
Definition ToString (v : JSValue) : string :=
  match v with
  | VUndefined => "undefined"
  | VNull => "null"
  | VBool true => "true"
  | VBool false => "false"
  | VNum n => pretty n
  | VStr s => s
  | VError name message =>
      if decide (name = "") then message
      else if decide (message = "") then name
      else name +:+ ": " +:+ message
  | VObject => "[object Object]"
  end.

(** The truth value of [v] in [if (v)]. *)
Definition truthy (v : JSValue) : bool :=
  match v with
  | VUndefined | VNull => false
  | VBool b => b
  | VNum n => negb (n =? 0)%Z
  | VStr s => negb (String.eqb s "")
  | VError _ _ | VObject => true
  end.

(** [new Error(v)]: the message is the string conversion of [v], and is left
    empty when [v] is [undefined]. *)
Definition newError (v : JSValue) : JSValue :=
  VError "Error" (match v with VUndefined => "" | _ => ToString v end).

(** The error raised by calling, constructing or reading through something
    that is not what the code expects. *)
Definition TypeError (message : string) : JSValue := VError "TypeError" message.

(** lodash [defaultTo]: the default replaces [undefined] and [null]. *)
Definition defaultTo (v d : JSValue) : JSValue :=
  match v with VUndefined | VNull => d | _ => v end.

(** A plain object with string keys; reading a key that is absent gives
    [undefined]. *)
Abbreviation Obj := (gmap string JSValue).

Definition get (o : Obj) (k : string) : JSValue := default VUndefined (o !! k).

(** ** The driver's world *)

(** The two listeners the store binds to a handle. *)
Inductive Listener : Type :=
| OnConnect   (* this._onConnect.bind(this) *)
| OnError.    (* this._onError.bind(this) *)

Global Instance Listener_eq_dec : EqDecision Listener.
Proof. solve_decision. Defined.

Record Handle : Type := mkHandle {
  readyState : Z;
  openListeners : list Listener;
  errorListeners : list Listener
}.

Global Instance Handle_eq_dec : EqDecision Handle.
Proof. solve_decision. Defined.

Inductive Kind : Type := KExpense | KIncome.

Global Instance Kind_eq_dec : EqDecision Kind.
Proof. solve_decision. Defined.

(** What the module-level variables [Expense] and [Income] can hold: the
    function required from ./models, a model compiled on a handle, or a value
    that is neither. *)
Inductive Binding : Type :=
| Factory (k : Kind)
| Model (k : Kind) (db : nat)
| NotModel.

Global Instance Binding_eq_dec : EqDecision Binding.
Proof. solve_decision. Defined.

(** Query documents, as the store writes them. *)
Inductive Conditions : Type :=
| Between (path : string) (gte lt : Z)   (* {path: {$gte: gte, $lt: lt}} *)
| ById (id : string).                    (* {_id: id} *)

Inductive Call : Type :=
| CreateConnection (uri : string)
| On (h : nat) (event : string) (l : Listener)
| Close (h : nat)
| Find (k : Kind) (c : Conditions) (fields : list string) (sort : string * Z)
| Remove (k : Kind) (c : Conditions)
| Update (k : Kind) (c : Conditions) (doc : Obj)
| Save (k : Kind) (doc : Obj).

(** The driver: how it behaves ([freshState], [modelCall], [fault]) and what
    it holds (handles, the two collections, the id counter, the call log).

    - [freshState] is the [readyState] of a handle just returned by
      [createConnection] (2, connecting, for mongoose; a test double may
      return a handle that is already in state 1);
    - [modelCall k db] is what applying a compiled model of kind [k] as a
      plain function to [(mongoose, db)] gives: [None] when the model is not
      callable, [Some b] when the call returns [b];
    - [fault], when set, is the error the driver passes to the callback of
      every record operation instead of carrying the operation out. *)
Record Driver : Type := mkDriver {
  freshState : Z;
  modelCall : Kind -> nat -> option Binding;
  fault : option JSValue;
  handles : list Handle;
  expenseDocs : list Obj;
  incomeDocs : list Obj;
  nextId : nat;
  calls : list Call
}.

(** ** The store *)

Inductive Event : Type :=
| EConnect
| EDisconnect
| EError (payload : JSValue).

Record Credentials : Type := mkCredentials {
  host : JSValue;
  database : JSValue;
  username : JSValue;
  password : JSValue;
  authSource : JSValue;
  port : JSValue
}.

(** The state the program runs on: the fields of [this], the two module-level
    variables, the driver and the events emitted so far (oldest first). *)
Record State : Type := mkState {
  _credentials : Credentials;
  connectOnInit : JSValue;
  _db : option nat;
  Expense : Binding;
  Income : Binding;
  mongoose : Driver;
  emitted : list Event
}.

(** ** Computations: state passing with exceptions

    A thrown value leaves the state as it was when it was thrown. *)
Inductive Completion (A : Type) : Type :=
| Normal (a : A)
| Throw (v : JSValue).
Arguments Normal {A} a.
Arguments Throw {A} v.

Definition M (A : Type) : Type := State -> Completion A * State.

Definition ret {A} (a : A) : M A := fun st => (Normal a, st).

Definition bind {A B} (c : M A) (k : A -> M B) : M B :=
  fun st =>
    match c st with
    | (Normal a, st') => k a st'
    | (Throw v, st') => (Throw v, st')
    end.

Definition throw {A} (v : JSValue) : M A := fun st => (Throw v, st).

Definition getState : M State := fun st => (Normal st, st).

Definition modify (f : State -> State) : M unit := fun st => (Normal tt, f st).

Notation "x <~ c ;; k" := (bind c (fun x => k))
  (at level 100, c at next level, right associativity).
Notation "c ;;; k" := (bind c (fun _ => k))
  (at level 100, right associativity).

(** How a promise is settled. *)
Inductive Settled (A : Type) : Type :=
| Resolved (a : A)
| Rejected (reason : JSValue).
Arguments Resolved {A} a.
Arguments Rejected {A} reason.

(** [new Promise((resolve, reject) => body)]: an exception thrown by the
    executor rejects the promise. *)
Definition newPromise {A} (body : M (Settled A)) : M (Settled A) :=
  fun st =>
    match body st with
    | (Normal p, st') => (Normal p, st')
    | (Throw v, st') => (Normal (Rejected v), st')
    end.

Definition setDriver (d : Driver) (st : State) : State :=
  mkState (_credentials st) (connectOnInit st) (_db st) (Expense st) (Income st)
          d (emitted st).

Definition setDb (h : option nat) (st : State) : State :=
  mkState (_credentials st) (connectOnInit st) h (Expense st) (Income st)
          (mongoose st) (emitted st).

Definition setExpense (b : Binding) (st : State) : State :=
  mkState (_credentials st) (connectOnInit st) (_db st) b (Income st)
          (mongoose st) (emitted st).

Definition setIncome (b : Binding) (st : State) : State :=
  mkState (_credentials st) (connectOnInit st) (_db st) (Expense st) b
          (mongoose st) (emitted st).

Definition setEmitted (l : list Event) (st : State) : State :=
  mkState (_credentials st) (connectOnInit st) (_db st) (Expense st) (Income st)
          (mongoose st) l.

Definition setCredentials (c : Credentials) (st : State) : State :=
  mkState c (connectOnInit st) (_db st) (Expense st) (Income st)
          (mongoose st) (emitted st).

Definition setConnectOnInit (v : JSValue) (st : State) : State :=
  mkState (_credentials st) v (_db st) (Expense st) (Income st)
          (mongoose st) (emitted st).

(** ** The driver interface the store calls *)
Module Mongoose.

Definition setHandles (hs : list Handle) (d : Driver) : Driver :=
  mkDriver (freshState d) (modelCall d) (fault d) hs (expenseDocs d)
           (incomeDocs d) (nextId d) (calls d).

Definition setNextId (n : nat) (d : Driver) : Driver :=
  mkDriver (freshState d) (modelCall d) (fault d) (handles d) (expenseDocs d)
           (incomeDocs d) n (calls d).

Definition log (c : Call) (d : Driver) : Driver :=
  mkDriver (freshState d) (modelCall d) (fault d) (handles d) (expenseDocs d)
           (incomeDocs d) (nextId d) (calls d ++ [c]).

Definition docs (k : Kind) (d : Driver) : list Obj :=
  match k with KExpense => expenseDocs d | KIncome => incomeDocs d end.

Definition setDocs (k : Kind) (l : list Obj) (d : Driver) : Driver :=
  match k with
  | KExpense =>
      mkDriver (freshState d) (modelCall d) (fault d) (handles d) l
               (incomeDocs d) (nextId d) (calls d)
  | KIncome =>
      mkDriver (freshState d) (modelCall d) (fault d) (handles d)
               (expenseDocs d) l (nextId d) (calls d)
  end.

Definition driver (f : Driver -> Driver) : M unit :=
  modify (fun st => setDriver (f (mongoose st)) st).

(** [mongoose.createConnection(uri)]: a new handle, not yet open unless the
    driver says so. *)
Definition createConnection (uri : string) : M nat :=
  st <~ getState ;;
  let d := mongoose st in
  driver (fun d => log (CreateConnection uri)
                     (setHandles (handles d ++ [mkHandle (freshState d) [] []]) d)) ;;;
  ret (length (handles d)).

(** [handle.on(event, listener)] *)
Definition addListener (event : string) (l : Listener) (hd : Handle) : Handle :=
  if decide (event = "open") then
    mkHandle (readyState hd) (openListeners hd ++ [l]) (errorListeners hd)
  else if decide (event = "error") then
    mkHandle (readyState hd) (openListeners hd) (errorListeners hd ++ [l])
  else hd.

Definition on (h : nat) (event : string) (l : Listener) : M unit :=
  driver (fun d => log (On h event l)
                     (setHandles (alter (addListener event l) h (handles d)) d)).

(** [handle.close()]: the handle leaves the connected state at once
    (3, disconnecting). *)
Definition close (h : nat) : M unit :=
  driver (fun d =>
    log (Close h)
        (setHandles
           (alter (fun hd => mkHandle 3 (openListeners hd) (errorListeners hd))
                  h (handles d)) d)).

(** Which documents a query document selects.  A range on a path selects
    the documents whose value there is a number in the range. *)
Definition matches (c : Conditions) (d : Obj) : bool :=
  match c with
  | Between path lo hi =>
      match get d path with
      | VNum t => bool_decide (lo ≤ t)%Z && bool_decide (t < hi)%Z
      | _ => false
      end
  | ById id => bool_decide (get d "_id" = VStr id)
  end.

(** The projection on a list of paths. *)
Definition select (fields : list string) (d : Obj) : Obj :=
  filter (fun kv => kv.1 ∈ fields) d.

(** Sorting on one path: numbers by value, everything that is not a number
    together below them. *)
Definition sortKey (path : string) (d : Obj) : option Z :=
  match get d path with VNum n => Some n | _ => None end.

Definition key_le (a b : option Z) : Prop :=
  match a, b with
  | None, _ => True
  | Some _, None => False
  | Some x, Some y => (x ≤ y)%Z
  end.

Definition before (sort : string * Z) (d1 d2 : Obj) : Prop :=
  if (sort.2 <? 0)%Z
  then key_le (sortKey sort.1 d2) (sortKey sort.1 d1)
  else key_le (sortKey sort.1 d1) (sortKey sort.1 d2).

Global Instance key_le_dec a b : Decision (key_le a b).
Proof. destruct a, b; simpl; apply _. Defined.

Global Instance before_dec sort d1 d2 : Decision (before sort d1 d2).
Proof. unfold before. destruct (sort.2 <? 0)%Z; apply _. Defined.

Definition query (c : Conditions) (fields : list string) (sort : string * Z)
    (l : list Obj) : list Obj :=
  select fields <$> merge_sort (before sort) (filter (fun d => matches c d) l).

(** [Model.update] without [multi]: the first selected document takes every
    key of the update document. *)
Fixpoint updateFirst (c : Conditions) (upd : Obj) (l : list Obj) : list Obj :=
  match l with
  | [] => []
  | d :: l' => if matches c d then (upd ∪ d) :: l' else d :: updateFirst c upd l'
  end.

(** A method of a model, reached through a module-level variable: it is
    there only when the variable holds a model.  What a value that is not a
    model answers to [remove] and [update] on its own account (a document
    has methods of these names) is not modelled: here every such call is a
    call of something that is not a function. *)
Definition method (b : Binding) (name : string) : M Kind :=
  match b with
  | Model k _ => ret k
  | _ => throw (TypeError (name +:+ " is not a function"))
  end.

(** [Model.find(conditions, fields, {sort}, callback)]: the arguments the
    callback receives. *)
Definition find (b : Binding) (c : Conditions) (fields : list string)
    (sort : string * Z) : M (JSValue * option (list Obj)) :=
  k <~ method b "find" ;;
  driver (log (Find k c fields sort)) ;;;
  st <~ getState ;;
  match fault (mongoose st) with
  | Some err => ret (err, None)
  | None => ret (VNull, Some (query c fields sort (docs k (mongoose st))))
  end.

(** [Model.remove(conditions, callback)] *)
Definition remove (b : Binding) (c : Conditions) : M JSValue :=
  k <~ method b "remove" ;;
  driver (log (Remove k c)) ;;;
  st <~ getState ;;
  match fault (mongoose st) with
  | Some err => ret err
  | None =>
      driver (fun d => setDocs k (filter (fun x => negb (matches c x)) (docs k d)) d) ;;;
      ret VNull
  end.

(** What the driver sends for an update document: there is no [undefined]
    on the wire, a key whose value is [undefined] goes out as [null]. *)
Definition onWire (v : JSValue) : JSValue :=
  match v with VUndefined => VNull | _ => v end.

Definition serialize (doc : Obj) : Obj := onWire <$> doc.

(** [Model.update(conditions, doc, callback)].  The casts of the schema are
    the driver's business: an update document it cannot cast (for mongoose,
    one whose timestamp is [undefined]) is among the errors [fault] stands
    for, and then nothing is written.  When the driver carries the update
    out, values of the declared types are stored as they are. *)
Definition update (b : Binding) (c : Conditions) (upd : Obj) : M JSValue :=
  k <~ method b "update" ;;
  driver (log (Update k c upd)) ;;;
  st <~ getState ;;
  match fault (mongoose st) with
  | Some err => ret err
  | None =>
      driver (fun d => setDocs k (updateFirst c (serialize upd) (docs k d)) d) ;;;
      ret VNull
  end.

(** Modelled from the spec: the schemas of ./models/expense.js and
    ./models/income.js, which are not among the sources.  Both record kinds
    have the paths of the ledger record; a new document keeps the paths of
    the schema, drops every other key of the input, and gets its
    identifier from the store. *)
Definition schemaPaths : list string :=
  ["account"; "amount"; "currency"; "timestamp"; "description";
   "availableCredit"; "category"].

(** [new Model(e)] *)
Definition construct (b : Binding) (e : Obj) : M (Kind * Obj) :=
  match b with
  | Model k _ =>
      st <~ getState ;;
      let n := nextId (mongoose st) in
      driver (setNextId (S n)) ;;;
      ret (k, <["_id" := VStr (pretty n)]> (select schemaPaths e))
  | _ => throw (TypeError "is not a constructor")
  end.

(** [document.save()]: the promise it returns. *)
Definition save (doc : Kind * Obj) : M (Settled unit) :=
  driver (log (Save doc.1 doc.2)) ;;;
  st <~ getState ;;
  match fault (mongoose st) with
  | Some err => ret (Rejected err)
  | None =>
      driver (fun d => setDocs doc.1 (docs doc.1 d ++ [doc.2]) d) ;;;
      ret (Resolved tt)
  end.

(** Modelled from the spec: the functions exported by ./models/expense.js
    and ./models/income.js, which are not among the sources.  Applied to
    [(mongoose, db)] each compiles its collection's model on [db].  A model
    applied in the same way answers as the driver says; anything else is
    not a function. *)
Definition apply (b : Binding) (db : nat) : M Binding :=
  match b with
  | Factory k => ret (Model k db)
  | Model k _ =>
      st <~ getState ;;
      match modelCall (mongoose st) k db with
      | Some b' => ret b'
      | None => throw (TypeError "is not a function")
      end
  | NotModel => throw (TypeError "is not a function")
  end.

End Mongoose.

(** ** class Expenses extends EventEmitter *)

(** [this.emit(...)]: the event joins the events emitted so far.  This is
    the record of what the store emits; that [EventEmitter.emit] goes on to
    throw the payload of an [error] event when the store has no listener
    for it is not modelled. *)
Definition emit (e : Event) : M unit :=
  modify (fun st => setEmitted (emitted st ++ [e]) st).

Definition _onConnect : M unit := emit EConnect.

Definition _onDisconnect : M unit := emit EDisconnect.

Definition _onError (error : JSValue) : M unit :=
  let error := if negb (instanceofError error) then newError error else error in
  emit (EError error).

(** [get isConnected ()]: the handle is an object and its [readyState] is 1. *)
Definition CONNECTED : Z := 1.

Definition isConnected (st : State) : bool :=
  match _db st with
  | Some db =>
      match handles (mongoose st) !! db with
      | Some hd => bool_decide (readyState hd = CONNECTED)
      | None => false
      end
  | None => false
  end.

Definition connect : M unit :=
  st <~ getState ;;
  if isConnected st then ret tt
  else
    let host := host (_credentials st) in
    let port := port (_credentials st) in
    let database := database (_credentials st) in
    let hasUsername := bool_decide (username (_credentials st) ≠ VNull) in
    let hasPassword := bool_decide (password (_credentials st) ≠ VNull) in
    let hasAuthSource := bool_decide (authSource (_credentials st) ≠ VNull) in
    let uri :=
      if hasUsername && hasPassword && hasAuthSource then
        let username := username (_credentials st) in
        let password := password (_credentials st) in
        let authSource := authSource (_credentials st) in
        "mongodb://" +:+ ToString username +:+ ":" +:+ ToString password
          +:+ "@" +:+ ToString host +:+ ":" +:+ ToString port
          +:+ "/" +:+ ToString database
          +:+ "?authSource=" +:+ ToString authSource
      else
        "mongodb://" +:+ ToString host +:+ ":" +:+ ToString port
          +:+ "/" +:+ ToString database in
    db <~ Mongoose.createConnection uri ;;
    modify (setDb (Some db)) ;;;
    st <~ getState ;;
    expense <~ Mongoose.apply (Expense st) db ;;
    modify (setExpense expense) ;;;
    st <~ getState ;;
    income <~ Mongoose.apply (Income st) db ;;
    modify (setIncome income) ;;;
    Mongoose.on db "open" OnConnect ;;;
    Mongoose.on db "error" OnError.

Definition disconnect : M unit :=
  st <~ getState ;;
  if negb (isConnected st) then ret tt
  else
    match _db st with
    | Some db => Mongoose.close db
    | None => throw (TypeError "Cannot read property 'close' of undefined")
    end ;;;
    _onDisconnect.

(** [constructor (credentials, options, dependencies)].  The state it starts
    from holds the driver that [dependencies.mongoose] (or the default)
    names, and the module-level variables as they are at that time. *)
Definition constructor (credentials : Obj) (options : option Obj) : M unit :=
  modify (setCredentials
    {| host := get credentials "host";
       database := get credentials "database";
       username := defaultTo (get credentials "username") VNull;
       password := defaultTo (get credentials "password") VNull;
       authSource := defaultTo (get credentials "authSource") VNull;
       port := defaultTo (get credentials "port") (VNum 27017) |}) ;;;
  let options := default ∅ options in
  modify (setConnectOnInit (defaultTo (get options "connectOnInit") (VBool true))) ;;;
  st <~ getState ;;
  if truthy (connectOnInit st) then connect else ret tt.

(** The paths every range query asks for. *)
Definition selected : list string :=
  ["_id"; "account"; "amount"; "currency"; "timestamp"; "description";
   "availableCredit"; "category"].

Definition putExpense (e : Obj) : M unit :=
  st <~ getState ;;
  expense <~ Mongoose.construct (Expense st) e ;;
  Mongoose.save expense ;;;
  ret tt.

Definition getExpenses (s e : Z) : M (Settled (option (list Obj))) :=
  newPromise (
    st <~ getState ;;
    r <~ Mongoose.find (Expense st) (Between "timestamp" s e) selected
           ("timestamp", (-1)%Z) ;;
    let '(error, expenses) := r in
    if truthy error then ret (Rejected error) else ret (Resolved expenses)).

Definition removeExpense (id : string) : M (Settled unit) :=
  newPromise (
    st <~ getState ;;
    error <~ Mongoose.remove (Expense st) (ById id) ;;
    if truthy error then ret (Rejected error) else ret (Resolved tt)).

Definition editExpense (id : string) (changes : Obj) : M (Settled unit) :=
  newPromise (
    st <~ getState ;;
    error <~ Mongoose.update (Expense st) (ById id)
               (<["description" := get changes "description"]>
                  (<["timestamp" := get changes "timestamp"]>
                     (<["category" := get changes "category"]> ∅))) ;;
    if truthy error then ret (Rejected error) else ret (Resolved tt)).

Definition putIncome (i : Obj) : M unit :=
  st <~ getState ;;
  income <~ Mongoose.construct (Income st) i ;;
  Mongoose.save income ;;;
  ret tt.

Definition getIncome (s e : Z) : M (Settled (option (list Obj))) :=
  newPromise (
    st <~ getState ;;
    r <~ Mongoose.find (Income st) (Between "timestamp" s e) selected
           ("timestamp", (-1)%Z) ;;
    let '(error, expenses) := r in
    if truthy error then ret (Rejected error) else ret (Resolved expenses)).

Definition removeIncome (id : string) : M (Settled unit) :=
  newPromise (
    st <~ getState ;;
    error <~ Mongoose.remove (Income st) (ById id) ;;
    if truthy error then ret (Rejected error) else ret (Resolved tt)).

Definition editIncome (id : string) (changes : Obj) : M (Settled unit) :=
  newPromise (
    st <~ getState ;;
    error <~ Mongoose.update (Income st) (ById id)
               (<["description" := get changes "description"]>
                  (<["timestamp" := get changes "timestamp"]>
                     (<["category" := get changes "category"]> ∅))) ;;
    if truthy error then ret (Rejected error) else ret (Resolved tt)).

(** ** What the driver does on its own

    A handle tells its listeners that the connection opened, or that it
    failed; the listeners are the two methods [connect] bound. *)
Definition listener (l : Listener) (arg : JSValue) : M unit :=
  match l with
  | OnConnect => _onConnect
  | OnError => _onError arg
  end.

Fixpoint fire (ls : list Listener) (arg : JSValue) : M unit :=
  match ls with
  | [] => ret tt
  | l :: ls' => listener l arg ;;; fire ls' arg
  end.

Definition setReadyState (n : Z) (hd : Handle) : Handle :=
  mkHandle n (openListeners hd) (errorListeners hd).

Definition opened (h : nat) : M unit :=
  Mongoose.driver (fun d =>
    Mongoose.setHandles (alter (setReadyState CONNECTED) h (handles d)) d) ;;;
  st <~ getState ;;
  fire (default [] (openListeners <$> handles (mongoose st) !! h)) VUndefined.

Definition failed (h : nat) (error : JSValue) : M unit :=
  Mongoose.driver (fun d =>
    Mongoose.setHandles (alter (setReadyState 0) h (handles d)) d) ;;;
  st <~ getState ;;
  fire (default [] (errorListeners <$> handles (mongoose st) !! h)) error.

(** The state of the program once the module is loaded, with an empty
    database behind the driver. *)
Definition noCredentials : Credentials :=
  mkCredentials VUndefined VUndefined VUndefined VUndefined VUndefined VUndefined.

Definition loaded (fresh : Z) (call : Kind -> nat -> option Binding)
    (err : option JSValue) : State :=
  {| _credentials := noCredentials;
     connectOnInit := VUndefined;
     _db := None;
     Expense := Factory KExpense;
     Income := Factory KIncome;
     mongoose := mkDriver fresh call err [] [] [] 0 [];
     emitted := [] |}.

(** ** Words of the specification *)

(** A credential is present when the caller gave it a value: neither
    [undefined] (or left out) nor [null]. *)
Definition present (v : JSValue) : bool :=
  match v with VUndefined | VNull => false | _ => true end.

(** How often the connection setup ran: the handles the driver was asked to
    open. *)
Definition isSetup (c : Call) : bool :=
  match c with CreateConnection _ => true | _ => false end.

Definition setups (st : State) : nat :=
  length (filter (fun c => isSetup c = true) (calls (mongoose st))).

(** The timestamp of a record, when it is a number. *)
Definition timestampOf (d : Obj) : option Z :=
  match get d "timestamp" with VNum t => Some t | _ => None end.

(** A record's timestamp lies in the window [[s, e)]. *)
Definition inWindow (s e : Z) (d : Obj) : Prop :=
  match timestampOf d with
  | Some t => (s ≤ t < e)%Z
  | None => False
  end.

Global Instance inWindow_dec s e d : Decision (inWindow s e d).
Proof. unfold inWindow. destruct (timestampOf d); apply _. Defined.

(** [d1] may come before [d2] in a result sorted by timestamp descending. *)
Definition newerFirst (d1 d2 : Obj) : Prop :=
  match timestampOf d1, timestampOf d2 with
  | Some t1, Some t2 => (t2 ≤ t1)%Z
  | _, _ => False
  end.

(** What the driver finds for the query of [getExpenses] and [getIncome]. *)
Definition found (s e : Z) (l : list Obj) : list Obj :=
  Mongoose.query (Between "timestamp" s e) selected ("timestamp", (-1)%Z) l.

(** The timestamps of the records a range query resolved with. *)
Definition timestamps (r : Completion (Settled (option (list Obj))))
    : option (list (option Z)) :=
  match r with
  | Normal (Resolved (Some l)) => Some (timestampOf <$> l)
  | _ => None
  end.

(** Modelled from the spec: the types of the ledger record's fields that the
    round trip reads (the schemas are not among the sources).  Account,
    currency and description are strings, timestamp and availableCredit are
    numbers. *)
Definition isString (v : JSValue) : Prop :=
  match v with VStr _ => True | _ => False end.

Definition isNumber (v : JSValue) : Prop :=
  match v with VNum _ => True | _ => False end.

Definition ledgerRecord (r : Obj) : Prop :=
  isString (get r "account") ∧ isString (get r "currency") ∧
  isNumber (get r "timestamp") ∧ isString (get r "description") ∧
  isNumber (get r "availableCredit").

(** The error argument the driver passes to the callback of a record
    operation. *)
Definition reported (st : State) : JSValue := default VNull (fault (mongoose st)).

(** No document has the identifier [id]. *)
Definition absent (id : string) (l : list Obj) : Prop :=
  Forall (fun d => get d "_id" ≠ VStr id) l.

(** The update document of [editExpense] and [editIncome]. *)
Definition edited : list string := ["description"; "timestamp"; "category"].

(** ** Histories of a store

    What can happen to a store after its construction: calls of its methods,
    and the driver reporting on a handle. *)
Inductive Action : Type :=
| AConnect
| ADisconnect
| APutExpense (e : Obj)
| AGetExpenses (s e : Z)
| ARemoveExpense (id : string)
| AEditExpense (id : string) (changes : Obj)
| APutIncome (i : Obj)
| AGetIncome (s e : Z)
| ARemoveIncome (id : string)
| AEditIncome (id : string) (changes : Obj)
| AOpened (h : nat)
| AFailed (h : nat) (error : JSValue).

Definition step (st : State) (a : Action) : State :=
  match a with
  | AConnect => (connect st).2
  | ADisconnect => (disconnect st).2
  | APutExpense e => (putExpense e st).2
  | AGetExpenses s e => (getExpenses s e st).2
  | ARemoveExpense id => (removeExpense id st).2
  | AEditExpense id changes => (editExpense id changes st).2
  | APutIncome i => (putIncome i st).2
  | AGetIncome s e => (getIncome s e st).2
  | ARemoveIncome id => (removeIncome id st).2
  | AEditIncome id changes => (editIncome id changes st).2
  | AOpened h => (opened h st).2
  | AFailed h error => (failed h error st).2
  end.

Definition run (st : State) (l : list Action) : State := foldl step st l.

Definition isOpened (a : Action) : Prop :=
  match a with AOpened _ => True | _ => False end.

(** ** Sample drivers and stores *)

(** Models that can be applied as functions and then give something that is
    not a model, as the classes mongoose compiles do (called without [new],
    they build a document). *)
Definition callableModels : Kind -> nat -> option Binding :=
  fun _ _ => Some NotModel.

(** Models that are plain objects, as a test double may provide. *)
Definition objectModels : Kind -> nat -> option Binding := fun _ _ => None.

Definition plainCredentials : Obj :=
  <["host" := VStr "db"]> (<["database" := VStr "eun"]> ∅).

Definition fullCredentials : Obj :=
  <["username" := VStr "omar"]>
    (<["password" := VStr "secret"]>
       (<["authSource" := VStr "admin"]>
          (<["port" := VNum 27018]> plainCredentials))).

Definition partialCredentials : Obj :=
  <["username" := VStr "omar"]> (<["password" := VStr "secret"]> plainCredentials).

Definition noConnectOnInit : option Obj :=
  Some (<["connectOnInit" := VBool false]> ∅).

(** A store constructed with the defaults on a driver that opens handles in
    the connecting state. *)
Definition connecting (call : Kind -> nat -> option Binding) : State :=
  (constructor plainCredentials None (loaded 2 call None)).2.

(** The same store once its connection opened. *)
Definition connected : State := (opened 0 (connecting callableModels)).2.

Definition entry (t : Z) : Obj :=
  <["account" := VStr "visa"]>
    (<["amount" := VNum 12]>
       (<["currency" := VStr "CAD"]>
          (<["timestamp" := VNum t]>
             (<["description" := VStr "coffee"]>
                (<["availableCredit" := VNum 500]>
                   (<["note" := VStr "left out by the schema"]> ∅)))))).

(** The connected store after expenses with timestamps 50, 100, 150, 199 and
    200 were put, in that order. *)
Definition ledger : State :=
  run connected
    [APutExpense (entry 50); APutExpense (entry 100); APutExpense (entry 150);
     APutExpense (entry 199); APutExpense (entry 200)].

(** The income counterpart. *)
Definition incomeLedger : State :=
  run connected
    [APutIncome (entry 50); APutIncome (entry 100); APutIncome (entry 150);
     APutIncome (entry 199); APutIncome (entry 200)].

(** A store whose first connection failed and that was asked to connect
    again. *)
Definition reconnected (call : Kind -> nat -> option Binding) : State :=
  run (connecting call) [AFailed 0 (VStr "ECONNREFUSED"); AConnect].

(** ** The two record kinds side by side

    Each method exists once per kind, reading its own module-level variable. *)
Definition variable (which : Kind) (st : State) : Binding :=
  match which with KExpense => Expense st | KIncome => Income st end.

Definition put (which : Kind) : Obj -> M unit :=
  match which with KExpense => putExpense | KIncome => putIncome end.

Definition getBetween (which : Kind) : Z -> Z -> M (Settled (option (list Obj))) :=
  match which with KExpense => getExpenses | KIncome => getIncome end.

Definition removeById (which : Kind) : string -> M (Settled unit) :=
  match which with KExpense => removeExpense | KIncome => removeIncome end.

Definition editById (which : Kind) : string -> Obj -> M (Settled unit) :=
  match which with KExpense => editExpense | KIncome => editIncome end.

(** A store whose driver fails every record operation with [err]. *)
Definition failing (err : JSValue) (st : State) : State :=
  let d := mongoose st in
  setDriver (mkDriver (freshState d) (modelCall d) (Some err) (handles d)
               (expenseDocs d) (incomeDocs d) (nextId d) (calls d)) st.

Definition diskFull : JSValue := VError "MongoError" "disk full".


(** The value is a compiled model. *)
Definition isModel (b : Binding) : Prop :=
  match b with Model _ _ => True | _ => False end.

(** ** Invariants of a history *)

(** The driver hands out no handle that is already open, and no handle is
    open. *)
Definition neverOpened (st : State) : Prop :=
  freshState (mongoose st) ≠ CONNECTED
  ∧ Forall (fun hd => readyState hd ≠ CONNECTED) (handles (mongoose st)).

(** A computation keeps [P], whether it returns or throws. *)
Definition preserves {A} (P : State -> Prop) (c : M A) : Prop :=
  ∀ st, P st -> P (c st).2.

(** A store on which [connect] has not been called yet. *)
Definition unconnected (call : Kind -> nat -> option Binding) : State :=
  (constructor plainCredentials noConnectOnInit (loaded 2 call None)).2.

(** A connected store over three stored expenses, written out. *)
Definition stored (id : string) (t : Z) : Obj :=
  <["_id" := VStr id]> (Mongoose.select Mongoose.schemaPaths (entry t)).

Definition shelf : State :=
  {| _credentials := mkCredentials (VStr "db") (VStr "eun") VNull VNull VNull
                       (VNum 27017);
     connectOnInit := VBool true;
     _db := Some 0%nat;
     Expense := Model KExpense 0;
     Income := Model KIncome 0;
     mongoose :=
       mkDriver 2 callableModels None [mkHandle 1 [OnConnect] [OnError]]
         [stored "0" 50; stored "1" 100; stored "2" 150] [] 3
         [CreateConnection "mongodb://db:27017/eun";
          On 0 "open" OnConnect; On 0 "error" OnError];
     emitted := [EConnect] |}.


(** ** The public view of an expense

    src/server/api/models/expense.js: the five fields the API shows, read
    from a stored expense. *)
Definition expenseModel (expense : Obj) : Obj :=
  <["account" := get expense "account"]>
    (<["currency" := get expense "currency"]>
       (<["timestamp" := get expense "timestamp"]>
          (<["description" := get expense "description"]>
             (<["availableCredit" := get expense "availableCredit"]> ∅)))).

Definition publicFields : list string :=
  ["account"; "currency"; "timestamp"; "description"; "availableCredit"].

(** ** More words for statements *)

(** What a listener emits when the driver calls it with [arg]. *)
Definition eventOf (arg : JSValue) (l : Listener) : Event :=
  match l with
  | OnConnect => EConnect
  | OnError => EError (if instanceofError arg then arg else newError arg)
  end.

(** The payload of an [error] event is an [Error]. *)
Definition carriesError (e : Event) : Prop :=
  match e with
  | EError payload => instanceofError payload = true
  | _ => True
  end.

(** The connection string of a set of stored credentials, as [connect]
    writes it. *)
Definition connectionUri (c : Credentials) : string :=
  if bool_decide (username c ≠ VNull) && bool_decide (password c ≠ VNull)
     && bool_decide (authSource c ≠ VNull)
  then "mongodb://" +:+ ToString (username c) +:+ ":"
         +:+ ToString (password c) +:+ "@" +:+ ToString (host c) +:+ ":"
         +:+ ToString (port c) +:+ "/" +:+ ToString (database c)
         +:+ "?authSource=" +:+ ToString (authSource c)
  else "mongodb://" +:+ ToString (host c) +:+ ":" +:+ ToString (port c)
         +:+ "/" +:+ ToString (database c).

(** A driver call that opens a handle does so with [uri]. *)
Definition opensWith (uri : string) (c : Call) : Prop :=
  match c with
  | CreateConnection u => u = uri
  | _ => True
  end.

(** The action is a method call that cannot emit: everything but
    [disconnect()] and the driver's notifications. *)
Definition isSilent (a : Action) : Prop :=
  match a with
  | ADisconnect | AOpened _ | AFailed _ _ => False
  | _ => True
  end.

(** The option [connectOnInit] as the constructor reads it. *)
Definition connectsOnInit (options : option Obj) : bool :=
  truthy (defaultTo (get (default ∅ options) "connectOnInit") (VBool true)).

(** Between [st] and [st'] no driver call was made, no handle was added,
    and the store's handle, the module-level variables, the credentials and
    the collections are the same. *)
Definition untouched (st st' : State) : Prop :=
  calls (mongoose st') = calls (mongoose st)
  ∧ length (handles (mongoose st')) = length (handles (mongoose st))
  ∧ _db st' = _db st
  ∧ Expense st' = Expense st
  ∧ Income st' = Income st
  ∧ _credentials st' = _credentials st
  ∧ expenseDocs (mongoose st') = expenseDocs (mongoose st)
  ∧ incomeDocs (mongoose st') = incomeDocs (mongoose st).

(** A store on which [connect()] was called twice in a row while the first
    connection was still being established. *)
Definition connectedTwice : State :=
  run (unconnected callableModels) [AConnect; AConnect].

(** The update document [editExpense] and [editIncome] build from
    [changes]. *)
Definition updateDocument (changes : Obj) : Obj :=
  <["description" := get changes "description"]>
    (<["timestamp" := get changes "timestamp"]>
       (<["category" := get changes "category"]> ∅)).

(** The record kind an action works on, when it is a record operation. *)
Definition kindOf (a : Action) : option Kind :=
  match a with
  | APutExpense _ | AGetExpenses _ _ | ARemoveExpense _ | AEditExpense _ _ =>
      Some KExpense
  | APutIncome _ | AGetIncome _ _ | ARemoveIncome _ | AEditIncome _ _ =>
      Some KIncome
  | _ => None
  end.

Definition otherKind (k : Kind) : Kind :=
  match k with KExpense => KIncome | KIncome => KExpense end.

(** Every listener on every handle is the one [connect] binds to that
    event. *)
Definition wired (st : State) : Prop :=
  Forall (fun hd => Forall (eq OnConnect) (openListeners hd)
                    ∧ Forall (eq OnError) (errorListeners hd))
         (handles (mongoose st)).

Definition isErrorEvent (e : Event) : Prop :=
  match e with EError _ => True | _ => False end.
(** ** Running computations *)

Ltac unfold_store :=
  unfold constructor, connect, disconnect, putExpense, putIncome,
    getExpenses, getIncome, removeExpense, removeIncome, editExpense,
    editIncome, _onConnect, _onDisconnect, _onError, emit, opened, failed,
    Mongoose.createConnection, Mongoose.on, Mongoose.close, Mongoose.find,
    Mongoose.remove, Mongoose.update, Mongoose.construct, Mongoose.save,
    Mongoose.apply, Mongoose.method, Mongoose.driver, newPromise, bind, ret,
    throw, getState, modify in *.

Ltac open_state st :=
  let d := fresh "d" in
  destruct st as [? ? ? ? ? d ?]; destruct d; simpl in *.

Lemma present_defaultTo (v : JSValue) :
  bool_decide (defaultTo v VNull ≠ VNull) = present v.
Proof. by destruct v. Qed.

(** ** The connection URI *)

Section Uri.
Variable st : State.
Hypothesis not_connected : isConnected st = false.

Let c := _credentials st.

Lemma connect_uri :
  ∃ rest,
    calls (mongoose (connect st).2) =
      calls (mongoose st) ++
        CreateConnection
          (if bool_decide (username c ≠ VNull)
              && bool_decide (password c ≠ VNull)
              && bool_decide (authSource c ≠ VNull)
           then "mongodb://" +:+ ToString (username c) +:+ ":"
                  +:+ ToString (password c) +:+ "@" +:+ ToString (host c)
                  +:+ ":" +:+ ToString (port c) +:+ "/"
                  +:+ ToString (database c) +:+ "?authSource="
                  +:+ ToString (authSource c)
           else "mongodb://" +:+ ToString (host c) +:+ ":"
                  +:+ ToString (port c) +:+ "/" +:+ ToString (database c))
        :: rest.
Proof.
  subst c. unfold_store. rewrite not_connected.
  open_state st.
  match goal with
  | |- context [bool_decide ?a && bool_decide ?b && bool_decide ?c] =>
      generalize (bool_decide a && bool_decide b && bool_decide c)
  end.
  intros all.
  repeat match goal with
  | |- context [match ?b with Factory _ => _ | _ => _ end] => destruct b; simpl
  | |- context [match ?o with Some _ => _ | None => _ end] => destruct o; simpl
  end;
    rewrite <- ?app_assoc; simpl; eexists; reflexivity.
Qed.
End Uri.

Lemma constructor_default_options (credentials : Obj) (st0 : State) :
  constructor credentials None st0 =
    connect
      (setConnectOnInit (VBool true)
         (setCredentials
            {| host := get credentials "host";
               database := get credentials "database";
               username := defaultTo (get credentials "username") VNull;
               password := defaultTo (get credentials "password") VNull;
               authSource := defaultTo (get credentials "authSource") VNull;
               port := defaultTo (get credentials "port") (VNum 27017) |}
            st0)).
Proof. reflexivity. Qed.

(** C2: a store constructed from any credentials object connects with the
    authenticated URI
    [mongodb://{username}:{password}@{host}:{port}/{database}?authSource={authSource}]
    when username, password and authSource are all present, and with the
    unauthenticated URI [mongodb://{host}:{port}/{database}] as soon as one
    of the three is absent; every field is substituted as it is, the port
    being 27017 when none is given. *)
Theorem constructor_connects_with_uri (credentials : Obj) (st0 : State) :
  isConnected st0 = false ->
  let username := get credentials "username" in
  let password := get credentials "password" in
  let authSource := get credentials "authSource" in
  let host := get credentials "host" in
  let database := get credentials "database" in
  let port := defaultTo (get credentials "port") (VNum 27017) in
  ∃ rest,
    calls (mongoose (constructor credentials None st0).2) =
      calls (mongoose st0) ++
        CreateConnection
          (if present username && present password && present authSource
           then "mongodb://" +:+ ToString username +:+ ":"
                  +:+ ToString password +:+ "@" +:+ ToString host +:+ ":"
                  +:+ ToString port +:+ "/" +:+ ToString database
                  +:+ "?authSource=" +:+ ToString authSource
           else "mongodb://" +:+ ToString host +:+ ":" +:+ ToString port
                  +:+ "/" +:+ ToString database)
        :: rest.
Proof.
  intros Hnot username password authSource host database port.
  rewrite constructor_default_options.
  match goal with |- context [connect ?s] => set (st := s) end.
  assert (Hst : isConnected st = false) by (by destruct st0).
  destruct (connect_uri st Hst) as [rest Hrest].
  exists rest. rewrite Hrest. subst st. destruct st0; simpl.
  rewrite !present_defaultTo.
  fold username password authSource host database port.
  destruct (present username) eqn:Hu, (present password) eqn:Hp,
    (present authSource) eqn:Ha; simpl; try reflexivity.
  by destruct username, password, authSource.
Qed.

(** The three credentials given, and then two of them only. *)
Lemma constructor_connects_with_uri_witness :
  isConnected (loaded 2 callableModels None) = false
  ∧ (∃ rest,
       calls (mongoose (constructor fullCredentials None
                          (loaded 2 callableModels None)).2) =
         [] ++ CreateConnection
                 "mongodb://omar:secret@db:27018/eun?authSource=admin" :: rest)
  ∧ (∃ rest,
       calls (mongoose (constructor partialCredentials None
                          (loaded 2 callableModels None)).2) =
         [] ++ CreateConnection "mongodb://db:27017/eun" :: rest).
Proof.
  split; [reflexivity | split].
  - exact (constructor_connects_with_uri fullCredentials
             (loaded 2 callableModels None) eq_refl).
  - exact (constructor_connects_with_uri partialCredentials
             (loaded 2 callableModels None) eq_refl).
Defined.

(** ** The error path *)

(** C7: whatever value reaches [_onError], exactly one [error] event is
    emitted and its payload is an [Error]: the value itself when it already
    is one, and otherwise a new [Error] whose message is the text of the
    value, so that a string comes back as the message unchanged. *)
Theorem onError_emits_Error (v : JSValue) (s : string) (st : State) :
  (∃ payload,
     _onError v st = (Normal tt, setEmitted (emitted st ++ [EError payload]) st)
     ∧ instanceofError payload = true
     ∧ payload =
         if instanceofError v then v
         else VError "Error" (match v with VUndefined => "" | _ => ToString v end))
  ∧ _onError (VStr s) st =
      (Normal tt, setEmitted (emitted st ++ [EError (VError "Error" s)]) st).
Proof.
  split; [| reflexivity].
  exists (if instanceofError v then v else newError v).
  split; [by destruct v |].
  split; by destruct v.
Qed.

(** The same, seen from the driver: an error on a handle that [connect]
    bound reaches the store's listeners as an [Error]. *)
Lemma failed_emits_Error (h : nat) (v : JSValue) (st : State) (hd : Handle) :
  handles (mongoose st) !! h = Some hd ->
  errorListeners hd = [OnError] ->
  emitted (failed h v st).2 =
    emitted st ++ [EError (if instanceofError v then v else newError v)].
Proof.
  intros Hh Hl. destruct hd as [rs ol el]. simpl in Hl. subst el.
  unfold_store. open_state st.
  rewrite list_lookup_alter, Hh, decide_True by done. simpl.
  by destruct v.
Qed.

(** ** Record operations that do not depend on the stored data *)

Ltac open_model which st H :=
  destruct which; open_state st; simpl in H; subst.

(** C6: [putExpense] and [putIncome] return nothing and tell nobody how the
    save went: whether the driver stores the record or fails, the call
    returns normally with no value, no event is emitted, and when the save
    fails the promise of the save is the only place the error is in. *)
Theorem put_swallows_save_error (which : Kind) (e : Obj) (st : State)
    (k : Kind) (h : nat) :
  variable which st = Model k h ->
  (put which e st).1 = Normal tt
  ∧ emitted (put which e st).2 = emitted st
  ∧ match fault (mongoose st) with
    | Some err =>
        (∀ doc, (Mongoose.save doc st).1 = Normal (Rejected err))
        ∧ expenseDocs (mongoose (put which e st).2) = expenseDocs (mongoose st)
        ∧ incomeDocs (mongoose (put which e st).2) = incomeDocs (mongoose st)
    | None =>
        ∃ doc, Mongoose.docs k (mongoose (put which e st).2) =
                 Mongoose.docs k (mongoose st) ++ [doc]
    end.
Proof.
  intros Hv. unfold put. unfold_store.
  open_model which st Hv; destruct fault0; simpl;
    repeat split; try reflexivity;
    destruct k; simpl; eexists; reflexivity.
Qed.

Lemma put_swallows_save_error_witness :
  let st := failing diskFull connected in
  variable KExpense st = Model KExpense 0
  ∧ (putExpense (entry 5) st).1 = Normal tt
  ∧ emitted (putExpense (entry 5) st).2 = emitted st.
Proof.
  intros st.
  pose proof (put_swallows_save_error KExpense (entry 5) st KExpense 0 eq_refl)
    as (H1 & H2 & _).
  exact (conj eq_refl (conj H1 H2)).
Defined.

Lemma remove_absent (id : string) (l : list Obj) :
  absent id l ->
  filter (fun x => negb (Mongoose.matches (ById id) x)) l = l.
Proof.
  induction 1 as [| d l Hd _ IH]; [done |].
  rewrite filter_cons, IH. simpl.
  by rewrite bool_decide_eq_false_2.
Qed.

Lemma updateFirst_absent (id : string) (upd : Obj) (l : list Obj) :
  absent id l -> Mongoose.updateFirst (ById id) upd l = l.
Proof.
  induction 1 as [| d l Hd _ IH]; [done |].
  simpl. rewrite bool_decide_eq_false_2 by done. by rewrite IH.
Qed.

Lemma updateFirst_first (id : string) (upd d : Obj) (l1 l2 : list Obj) :
  absent id l1 -> get d "_id" = VStr id ->
  Mongoose.updateFirst (ById id) upd (l1 ++ d :: l2) = l1 ++ (upd ∪ d) :: l2.
Proof.
  intros Hl1 Hd. induction Hl1 as [| x l1 Hx _ IH]; simpl.
  - by rewrite bool_decide_eq_true_2.
  - rewrite bool_decide_eq_false_2 by done. by rewrite IH.
Qed.

(** Removing and editing settle on the error the driver reports and on
    nothing else: the stored documents play no part. *)
Lemma remove_edit_outcome (which : Kind) (id : string) (changes : Obj)
    (st : State) (k : Kind) (h : nat) :
  variable which st = Model k h ->
  let outcome :=
    if truthy (reported st) then Rejected (reported st) else Resolved tt in
  (removeById which id st).1 = Normal outcome
  ∧ (editById which id changes st).1 = Normal outcome.
Proof.
  intros Hv. unfold removeById, editById, reported. unfold_store.
  open_model which st Hv; destruct fault0 as [err |]; simpl;
    try destruct (truthy err); done.
Qed.

(** C5: when no stored record has the identifier, [removeExpense],
    [editExpense] and their income counterparts leave the collection as it
    is and still resolve, unless the driver reports an error: they settle
    exactly as they do when a record matches, on the driver's error
    argument alone. *)
Theorem remove_edit_absent_id (which : Kind) (id : string) (changes : Obj)
    (st : State) (k : Kind) (h : nat) :
  variable which st = Model k h ->
  absent id (Mongoose.docs k (mongoose st)) ->
  let outcome :=
    if truthy (reported st) then Rejected (reported st) else Resolved tt in
  ((removeById which id st).1 = Normal outcome
   ∧ Mongoose.docs k (mongoose (removeById which id st).2) =
       Mongoose.docs k (mongoose st))
  ∧ ((editById which id changes st).1 = Normal outcome
     ∧ Mongoose.docs k (mongoose (editById which id changes st).2) =
         Mongoose.docs k (mongoose st))
  ∧ ((removeById which id st).1 = Normal (Resolved tt)
       <-> truthy (reported st) = false)
  ∧ ((editById which id changes st).1 = Normal (Resolved tt)
       <-> truthy (reported st) = false).
Proof.
  intros Hv Habs outcome.
  destruct (remove_edit_outcome which id changes st k h Hv) as [Hr He].
  fold outcome in Hr, He.
  split; [split; [exact Hr |] | split; [split; [exact He |] | split]].
  - clear Hr He outcome. unfold removeById. unfold_store.
    open_model which st Hv; destruct fault0 as [err |]; simpl;
      try destruct (truthy err); simpl; try done;
      destruct k; simpl in *; by apply remove_absent.
  - clear Hr He outcome. unfold editById. unfold_store.
    open_model which st Hv; destruct fault0 as [err |]; simpl;
      try destruct (truthy err); simpl; try done;
      destruct k; simpl in *; by apply updateFirst_absent.
  - rewrite Hr. subst outcome.
    destruct (truthy (reported st)); split; congruence.
  - rewrite He. subst outcome.
    destruct (truthy (reported st)); split; congruence.
Qed.

Lemma remove_edit_absent_id_witness :
  variable KExpense ledger = Model KExpense 0
  ∧ absent "nobody" (Mongoose.docs KExpense (mongoose ledger))
  ∧ (removeExpense "nobody" ledger).1 = Normal (Resolved tt)
  ∧ (editExpense "nobody" (entry 5) ledger).1 = Normal (Resolved tt)
  ∧ expenseDocs (mongoose (removeExpense "nobody" ledger).2) =
      expenseDocs (mongoose ledger).
Proof.
  assert (Hv : variable KExpense ledger = Model KExpense 0) by compute_done.
  assert (Habs : absent "nobody" (Mongoose.docs KExpense (mongoose ledger)))
    by (unfold absent; compute_done).
  pose proof (remove_edit_absent_id KExpense "nobody" (entry 5) ledger
                KExpense 0 Hv Habs) as ((Hr & Hd) & (He & _) & _).
  split; [exact Hv |]. split; [exact Habs |].
  split; [etrans; [exact Hr | compute_done] |].
  split; [etrans; [exact He | compute_done] |].
  exact Hd.
Defined.

(** ** The update document *)

Section Edit.
Variable changes : Obj.

Let upd : Obj :=
  <["description" := get changes "description"]>
    (<["timestamp" := get changes "timestamp"]>
       (<["category" := get changes "category"]> ∅)).

Lemma update_document_dom : dom upd = list_to_set edited.
Proof.
  subst upd. rewrite !dom_insert_L, dom_empty_L. unfold edited. simpl.
  set_solver.
Qed.

Lemma update_document_lookup (key : string) :
  key ∈ edited -> upd !! key = Some (get changes key).
Proof.
  unfold edited. rewrite !elem_of_cons, elem_of_nil.
  intros [-> | [-> | [-> | []]]]; subst upd; by simplify_map_eq.
Qed.

Lemma update_document_others (key : string) :
  key ∉ edited -> upd !! key = None.
Proof.
  intros Hk. apply not_elem_of_dom. rewrite update_document_dom.
  by rewrite elem_of_list_to_set.
Qed.

Lemma lookup_serialize (doc : Obj) (key : string) :
  Mongoose.serialize doc !! key = Mongoose.onWire <$> doc !! key.
Proof. unfold Mongoose.serialize. apply lookup_fmap. Qed.

Lemma serialized_update_lookup (key : string) :
  key ∈ edited ->
  Mongoose.serialize upd !! key = Some (Mongoose.onWire (get changes key)).
Proof.
  intros Hk. rewrite lookup_serialize.
  rewrite update_document_lookup by done. reflexivity.
Qed.

Lemma serialized_update_others (key : string) :
  key ∉ edited -> Mongoose.serialize upd !! key = None.
Proof.
  intros Hk. rewrite lookup_serialize.
  rewrite update_document_others by done. reflexivity.
Qed.

End Edit.



(** ** Range queries *)

Section Query.
Implicit Types (d : Obj) (l : list Obj) (s e : Z).

Lemma get_select (fields : list string) d (key : string) :
  get (Mongoose.select fields d) key =
    if decide (key ∈ fields) then get d key else VUndefined.
Proof.
  unfold get, Mongoose.select. rewrite map_lookup_filter.
  destruct (d !! key) as [v |]; simpl; [| by case_decide].
  destruct (decide (key ∈ fields)).
  - by rewrite option_guard_True.
  - by rewrite option_guard_False.
Qed.

Lemma timestampOf_select d :
  timestampOf (Mongoose.select selected d) = timestampOf d.
Proof.
  unfold timestampOf. rewrite get_select.
  rewrite decide_True; [done |]. compute_done.
Qed.

Global Instance key_le_total : Total Mongoose.key_le.
Proof. intros [x |] [y |]; simpl; try tauto. lia. Qed.

Global Instance key_le_trans : Transitive Mongoose.key_le.
Proof. intros [x |] [y |] [z |]; simpl; try tauto. lia. Qed.

Global Instance before_total (sort : string * Z) : Total (Mongoose.before sort).
Proof.
  intros d1 d2. unfold Mongoose.before.
  destruct (sort.2 <? 0)%Z; apply key_le_total.
Qed.

Global Instance before_trans (sort : string * Z) :
  Transitive (Mongoose.before sort).
Proof.
  intros d1 d2 d3. unfold Mongoose.before.
  destruct (sort.2 <? 0)%Z; intros H1 H2.
  - exact (key_le_trans _ _ _ H2 H1).
  - exact (key_le_trans _ _ _ H1 H2).
Qed.

Lemma matches_inWindow s e d :
  Mongoose.matches (Between "timestamp" s e) d <-> inWindow s e d.
Proof.
  unfold inWindow, timestampOf. simpl.
  destruct (get d "timestamp"); simpl; try tauto.
  rewrite andb_True, !bool_decide_spec. tauto.
Qed.

Lemma inWindow_newerFirst s e d1 d2 :
  inWindow s e d1 -> inWindow s e d2 ->
  Mongoose.before ("timestamp", (-1)%Z) d1 d2 -> newerFirst d1 d2.
Proof.
  unfold inWindow, newerFirst, Mongoose.before, Mongoose.sortKey, timestampOf.
  simpl. destruct (get d1 "timestamp"), (get d2 "timestamp"); simpl; tauto.
Qed.

Lemma StronglySorted_within (P : Obj -> Prop) (R R' : relation Obj) l :
  (∀ x y, P x -> P y -> R x y -> R' x y) ->
  Forall P l -> StronglySorted R l -> StronglySorted R' l.
Proof.
  intros HR HP Hs. induction Hs as [| x l Hs IH Hx]; [constructor |].
  apply Forall_cons in HP as [Hpx HP].
  constructor; [by apply IH |].
  rewrite Forall_forall in Hx, HP |- *. eauto.
Qed.

Lemma query_window s e l :
  found s e l ≡ₚ Mongoose.select selected <$> filter (inWindow s e) l.
Proof.
  unfold found, Mongoose.query. rewrite merge_sort_Permutation.
  by rewrite (list_filter_iff _ (inWindow s e)) by apply matches_inWindow.
Qed.

Lemma query_inWindow s e l : Forall (inWindow s e) (found s e l).
Proof.
  rewrite Forall_forall. intros d. rewrite query_window.
  rewrite list_elem_of_fmap. intros (d0 & -> & Hd0).
  apply list_elem_of_filter in Hd0 as [Hw _].
  unfold inWindow in *. by rewrite timestampOf_select.
Qed.

Lemma query_sorted s e l : StronglySorted newerFirst (found s e l).
Proof.
  unfold found, Mongoose.query.
  apply StronglySorted_fmap with (R1 := newerFirst).
  { intros x y. unfold newerFirst. by rewrite !timestampOf_select. }
  set (hits := filter (fun d => Mongoose.matches (Between "timestamp" s e) d) l).
  apply (StronglySorted_within (inWindow s e)
           (Mongoose.before ("timestamp", (-1)%Z))).
  - apply inWindow_newerFirst.
  - rewrite Forall_forall. intros d. rewrite merge_sort_Permutation.
    subst hits. rewrite list_elem_of_filter. intros [Hm _].
    by apply matches_inWindow.
  - apply StronglySorted_merge_sort; apply _.
Qed.
End Query.

Lemma getBetween_found (which : Kind) (s e : Z) (st : State) (k : Kind) (h : nat) :
  variable which st = Model k h ->
  fault (mongoose st) = None ->
  (getBetween which s e st).1 =
    Normal (Resolved (Some (found s e (Mongoose.docs k (mongoose st))))).
Proof.
  intros Hv Hf. unfold getBetween. unfold_store.
  open_model which st Hv; reflexivity.
Qed.

(** C1, with the example as the code answers it: on a driver that reports
    no error, [getExpenses(s, e)] and [getIncome(s, e)] resolve with exactly
    the stored records whose timestamp [t] satisfies [s <= t < e], sorted by
    timestamp descending; the lower bound is inclusive, so over records with
    timestamps 50, 100, 150, 199 and 200 the window [(100, 200)] gives the
    records with timestamps 199, 150 and 100, in that order. *)
Theorem range_query_window (which : Kind) (s e : Z) (st : State)
    (k : Kind) (h : nat) :
  variable which st = Model k h ->
  fault (mongoose st) = None ->
  (∃ l,
     (getBetween which s e st).1 = Normal (Resolved (Some l))
     ∧ l ≡ₚ Mongoose.select selected <$>
              filter (inWindow s e) (Mongoose.docs k (mongoose st))
     ∧ Forall (inWindow s e) l
     ∧ StronglySorted newerFirst l)
  ∧ timestampOf <$> expenseDocs (mongoose ledger) =
      [Some 50; Some 100; Some 150; Some 199; Some 200]%Z
  ∧ timestamps (getExpenses 100 200 ledger).1 =
      Some [Some 199; Some 150; Some 100]%Z
  ∧ timestamps (getIncome 100 200 incomeLedger).1 =
      Some [Some 199; Some 150; Some 100]%Z.
Proof.
  intros Hv Hf. split.
  - exists (found s e (Mongoose.docs k (mongoose st))).
    split; [by apply getBetween_found with h |].
    split; [apply query_window |].
    split; [apply query_inWindow | apply query_sorted].
  - repeat split; vm_compute; reflexivity.
Qed.

Lemma range_query_window_witness :
  variable KExpense ledger = Model KExpense 0
  ∧ fault (mongoose ledger) = None
  ∧ ∃ l,
      (getExpenses 100 200 ledger).1 = Normal (Resolved (Some l))
      ∧ Forall (inWindow 100 200) l
      ∧ StronglySorted newerFirst l.
Proof.
  assert (Hv : variable KExpense ledger = Model KExpense 0) by compute_done.
  assert (Hf : fault (mongoose ledger) = None) by compute_done.
  destruct (range_query_window KExpense 100 200 ledger KExpense 0 Hv Hf)
    as [(l & Hl & _ & Hw & Hs) _].
  split; [exact Hv |]. split; [exact Hf |].
  exists l. exact (conj Hl (conj Hw Hs)).
Defined.

(** The example of the claim, as it is stated: the record with timestamp
    100 is in the window, so the answer is not the two records with
    timestamps 199 and 150. *)
Lemma range_query_example_counterexample :
  timestampOf <$> expenseDocs (mongoose ledger) =
    [Some 50; Some 100; Some 150; Some 199; Some 200]%Z
  ∧ timestamps (getExpenses 100 200 ledger).1 =
      Some [Some 199; Some 150; Some 100]%Z
  ∧ timestamps (getExpenses 100 200 ledger).1 ≠ Some [Some 199; Some 150]%Z.
Proof.
  split; [compute_done | split; [compute_done |]].
  vm_compute. discriminate.
Qed.

(** ** Round trip *)

Lemma schemaPaths_selected (key : string) :
  key ∈ Mongoose.schemaPaths -> key ∈ selected ∧ "_id" ≠ key.
Proof.
  assert (Hsub : Forall (fun k => k ∈ selected ∧ "_id" ≠ k) Mongoose.schemaPaths)
    by compute_done.
  rewrite Forall_forall in Hsub. apply Hsub.
Qed.

Lemma get_constructed (r : Obj) (id : string) (key : string) :
  key ∈ Mongoose.schemaPaths ->
  get (Mongoose.select selected (<["_id" := VStr id]> (Mongoose.select Mongoose.schemaPaths r))) key
    = get r key.
Proof.
  intros Hk. destruct (schemaPaths_selected key Hk) as [Hsel Hne].
  rewrite get_select, decide_True by done.
  unfold get at 1. rewrite lookup_insert_ne by done.
  fold (get (Mongoose.select Mongoose.schemaPaths r) key).
  rewrite get_select. by rewrite decide_True.
Qed.

Lemma putExpense_stores (r : Obj) (st : State) (k : Kind) (h : nat) :
  Expense st = Model k h ->
  fault (mongoose st) = None ->
  let st' := (putExpense r st).2 in
  (putExpense r st).1 = Normal tt
  ∧ Expense st' = Model k h
  ∧ fault (mongoose st') = None
  ∧ Mongoose.docs k (mongoose st') =
      Mongoose.docs k (mongoose st) ++
        [<["_id" := VStr (pretty (nextId (mongoose st)))]>
           (Mongoose.select Mongoose.schemaPaths r)].
Proof.
  intros He Hf. unfold_store. open_state st. subst. simpl.
  by destruct k.
Qed.

(** C4: a record with the required fields that is put with [putExpense] on
    a driver that reports no error comes back from [getExpenses] for every
    window [[s, e)] that holds its timestamp, with the account, currency,
    timestamp, description and availableCredit it was given. *)
Theorem put_then_get_round_trip (r : Obj) (s e : Z) (st : State)
    (k : Kind) (h : nat) :
  Expense st = Model k h ->
  fault (mongoose st) = None ->
  ledgerRecord r ->
  inWindow s e r ->
  (putExpense r st).1 = Normal tt
  ∧ ∃ l d,
      (getExpenses s e (putExpense r st).2).1 = Normal (Resolved (Some l))
      ∧ d ∈ l
      ∧ get d "account" = get r "account"
      ∧ get d "currency" = get r "currency"
      ∧ get d "timestamp" = get r "timestamp"
      ∧ get d "description" = get r "description"
      ∧ get d "availableCredit" = get r "availableCredit".
Proof.
  intros He Hf _ Hw.
  destruct (putExpense_stores r st k h He Hf) as (Hput & He' & Hf' & Hdocs).
  split; [exact Hput |].
  set (st' := (putExpense r st).2) in *.
  set (d0 := <["_id" := VStr (pretty (nextId (mongoose st)))]>
               (Mongoose.select Mongoose.schemaPaths r)) in *.
  exists (found s e (Mongoose.docs k (mongoose st'))), (Mongoose.select selected d0).
  split; [exact (getBetween_found KExpense s e st' k h He' Hf') |].
  assert (Hkeys : ∀ key, key ∈ Mongoose.schemaPaths ->
                    get (Mongoose.select selected d0) key = get r key)
    by (intros key Hk; by apply get_constructed).
  assert (Hts : get (Mongoose.select selected d0) "timestamp" = get r "timestamp")
    by (apply Hkeys; compute_done).
  split.
  - rewrite query_window, Hdocs. apply list_elem_of_fmap_2.
    apply list_elem_of_filter. split; [| set_solver].
    unfold inWindow, timestampOf in *.
    rewrite <- Hts, get_select, decide_True in Hw; [done |].
    compute_done.
  - repeat split; apply Hkeys; compute_done.
Qed.

Lemma put_then_get_round_trip_witness :
  Expense ledger = Model KExpense 0
  ∧ fault (mongoose ledger) = None
  ∧ ledgerRecord (entry 120)
  ∧ inWindow 100 200 (entry 120)
  ∧ ∃ l d,
      (getExpenses 100 200 (putExpense (entry 120) ledger).2).1 =
        Normal (Resolved (Some l))
      ∧ d ∈ l
      ∧ get d "account" = VStr "visa"
      ∧ get d "timestamp" = VNum 120
      ∧ get d "availableCredit" = VNum 500.
Proof.
  assert (He : Expense ledger = Model KExpense 0) by compute_done.
  assert (Hf : fault (mongoose ledger) = None) by compute_done.
  assert (Hr : ledgerRecord (entry 120)) by (vm_compute; tauto).
  assert (Hw : inWindow 100 200 (entry 120)) by compute_done.
  destruct (put_then_get_round_trip (entry 120) 100 200 ledger KExpense 0
              He Hf Hr Hw)
    as (_ & l & d & Hl & Hd & Ha & _ & Ht & _ & Hc).
  split; [exact He |]. split; [exact Hf |].
  split; [exact Hr |]. split; [exact Hw |].
  exists l, d.
  split; [exact Hl |]. split; [exact Hd |].
  split; [etrans; [exact Ha | compute_done] |].
  split; [etrans; [exact Ht | compute_done] |].
  etrans; [exact Hc | compute_done].
Defined.

(** ** A store that never connected *)

Section Preserves.
Context {A B : Type} (P : State -> Prop).

Lemma preserves_ret (a : A) : preserves P (ret a).
Proof. by intros st. Qed.

Lemma preserves_throw (v : JSValue) : preserves P (@throw A v).
Proof. by intros st. Qed.

Lemma preserves_getState : preserves P getState.
Proof. by intros st. Qed.

Lemma preserves_bind (c : M A) (k : A -> M B) :
  preserves P c -> (∀ a, preserves P (k a)) -> preserves P (bind c k).
Proof.
  intros Hc Hk st Hst. unfold bind.
  specialize (Hc st Hst). destruct (c st) as [[a | v] st']; simpl in *.
  - by apply Hk.
  - done.
Qed.

Lemma preserves_newPromise (body : M (Settled A)) :
  preserves P body -> preserves P (newPromise body).
Proof.
  intros Hb st Hst. unfold newPromise.
  specialize (Hb st Hst). by destruct (body st) as [[p | v] st'].
Qed.

Lemma preserves_modify (f : State -> State) :
  (∀ st, P st -> P (f st)) -> preserves P (modify f).
Proof. intros Hf st Hst. by apply Hf. Qed.
End Preserves.

Create HintDb quiet.

#[local] Hint Resolve preserves_ret preserves_throw preserves_getState
  preserves_newPromise : quiet.

Lemma neverOpened_driver (f : Driver -> Driver) :
  (∀ d, freshState (f d) = freshState d) ->
  (∀ d, freshState d ≠ CONNECTED ->
        Forall (fun hd => readyState hd ≠ CONNECTED) (handles d) ->
        Forall (fun hd => readyState hd ≠ CONNECTED) (handles (f d))) ->
  preserves neverOpened (Mongoose.driver f).
Proof.
  intros Hfresh Hhandles st [Hf Hh]. unfold Mongoose.driver, modify.
  destruct st as [? ? ? ? ? d ?]; simpl in *.
  split; simpl; [rewrite (Hfresh d); exact Hf | by apply Hhandles].
Qed.

Lemma neverOpened_state (f : State -> State) :
  (∀ st, mongoose (f st) = mongoose st) -> preserves neverOpened (modify f).
Proof.
  intros Hf. apply preserves_modify. intros st. unfold neverOpened.
  by rewrite Hf.
Qed.

Lemma neverOpened_alter (f : Handle -> Handle) (h : nat) :
  (∀ hd, readyState (f hd) ≠ CONNECTED) ->
  preserves neverOpened
    (Mongoose.driver (fun d => Mongoose.setHandles (alter f h (handles d)) d)).
Proof.
  intros Hf. apply neverOpened_driver; [by intros [] |].
  intros [] _ Hh; simpl in *. apply Forall_alter; [done |]. intros; apply Hf.
Qed.

Lemma neverOpened_log (c : Call) :
  preserves neverOpened (Mongoose.driver (Mongoose.log c)).
Proof. apply neverOpened_driver; by intros []. Qed.

Lemma neverOpened_setDocs (k : Kind) (f : Driver -> list Obj) :
  preserves neverOpened (Mongoose.driver (fun d => Mongoose.setDocs k (f d) d)).
Proof. apply neverOpened_driver; by intros [] ; destruct k. Qed.

Lemma neverOpened_setNextId (n : nat) :
  preserves neverOpened (Mongoose.driver (Mongoose.setNextId n)).
Proof. apply neverOpened_driver; by intros []. Qed.

Lemma neverOpened_emit (e : Event) : preserves neverOpened (emit e).
Proof. apply neverOpened_state. by intros []. Qed.

#[local] Hint Resolve neverOpened_log neverOpened_setDocs neverOpened_setNextId
  neverOpened_emit : quiet.

Lemma neverOpened_createConnection (uri : string) :
  preserves neverOpened (Mongoose.createConnection uri).
Proof.
  unfold Mongoose.createConnection.
  apply preserves_bind; [auto with quiet |]. intros st.
  apply preserves_bind; [| auto with quiet].
  apply neverOpened_driver; [by intros [] |].
  intros [] Hf Hh; simpl in *. apply Forall_app. split; [done |].
  by repeat constructor.
Qed.

Lemma neverOpened_on (h : nat) (event : string) (l : Listener) :
  preserves neverOpened (Mongoose.on h event l).
Proof.
  unfold Mongoose.on. apply neverOpened_driver; [by intros [] |].
  intros [] _ Hh; simpl in *. apply Forall_alter; [done |].
  intros hd _ Hhd. unfold Mongoose.addListener. by repeat case_decide.
Qed.

Lemma neverOpened_close (h : nat) : preserves neverOpened (Mongoose.close h).
Proof.
  unfold Mongoose.close. apply neverOpened_driver; [by intros [] |].
  intros [] _ Hh; simpl in *. apply Forall_alter; [done |]. by intros.
Qed.

#[local] Hint Resolve neverOpened_createConnection neverOpened_on
  neverOpened_close : quiet.

(** Splits a computation along its binds and its branches, closing the
    leaves with the lemmas above. *)
Ltac quiet :=
  unfold connect, disconnect, putExpense, putIncome, getExpenses, getIncome,
    removeExpense, removeIncome, editExpense, editIncome, _onConnect,
    _onDisconnect, _onError, Mongoose.find, Mongoose.remove, Mongoose.update,
    Mongoose.construct, Mongoose.save, Mongoose.apply, Mongoose.method;
  repeat first
    [ solve [auto with quiet]
    | solve [apply neverOpened_state; by intros []]
    | apply preserves_newPromise
    | match goal with
      | |- preserves _ (match ?x with _ => _ end) => destruct x
      | |- preserves _ (let '(_, _) := ?x in _) => destruct x
      end
    | apply preserves_bind; [| intros ?] ].

Lemma neverOpened_fire (ls : list Listener) (arg : JSValue) :
  preserves neverOpened (fire ls arg).
Proof.
  induction ls as [| l ls IH]; simpl; [auto with quiet |].
  apply preserves_bind; [| by intros].
  destruct l; simpl; quiet.
Qed.

Lemma neverOpened_failed (h : nat) (error : JSValue) :
  preserves neverOpened (failed h error).
Proof.
  unfold failed. apply preserves_bind.
  - apply neverOpened_alter. by intros.
  - intros _. apply preserves_bind; [auto with quiet |].
    intros st. apply neverOpened_fire.
Qed.

Lemma neverOpened_step (a : Action) (st : State) :
  ¬ isOpened a -> neverOpened st -> neverOpened (step st a).
Proof.
  intros Ha Hst. destruct a; simpl in *; try tauto;
    match goal with
    | |- neverOpened (?c st).2 =>
        cut (preserves neverOpened c); [intros Hp; by apply Hp |]
    end;
    try apply neverOpened_failed; quiet.
Qed.

Lemma neverOpened_run (history : list Action) (st : State) :
  Forall (fun a => ¬ isOpened a) history ->
  neverOpened st -> neverOpened (run st history).
Proof.
  intros Hh. revert st. induction Hh as [| a history Ha _ IH]; intros st Hst.
  - done.
  - simpl. apply IH. by apply neverOpened_step.
Qed.

Lemma neverOpened_constructor (credentials : Obj) (options : option Obj) :
  preserves neverOpened (constructor credentials options).
Proof. unfold constructor. quiet. Qed.

Lemma neverOpened_not_connected (st : State) :
  neverOpened st -> isConnected st = false.
Proof.
  intros [_ Hh]. unfold isConnected.
  destruct (_db st) as [db |]; [| done].
  destruct (handles (mongoose st) !! db) as [hd |] eqn:Hdb; [| done].
  apply bool_decide_eq_false_2.
  rewrite Forall_forall in Hh. apply Hh. by eapply list_elem_of_lookup_2.
Qed.

(** [disconnect] does nothing on a store that is not connected. *)
Lemma disconnect_not_connected (st : State) :
  isConnected st = false -> disconnect st = (Normal tt, st).
Proof. intros H. unfold disconnect, bind, getState, ret. by rewrite H. Qed.

(** C9: take a store constructed on a driver whose handles do not start
    out open, and any history of method calls and connection failures in
    which no connection opens.  Then the store is not connected and
    [disconnect()] returns with the whole state as it was: no handle is
    closed, no event is emitted, nothing is written. *)
Theorem disconnect_never_connected (credentials : Obj) (options : option Obj)
    (st0 : State) (history : list Action) :
  neverOpened st0 ->
  Forall (fun a => ¬ isOpened a) history ->
  let st := run (constructor credentials options st0).2 history in
  isConnected st = false
  ∧ disconnect st = (Normal tt, st)
  ∧ calls (mongoose (disconnect st).2) = calls (mongoose st)
  ∧ emitted (disconnect st).2 = emitted st.
Proof.
  intros H0 Hh st.
  assert (Hst : isConnected st = false).
  { apply neverOpened_not_connected, neverOpened_run; [done |].
    by apply neverOpened_constructor. }
  split; [exact Hst |].
  by rewrite (disconnect_not_connected st Hst).
Qed.

Lemma disconnect_never_connected_witness :
  let history :=
    [APutExpense (entry 5); AFailed 0 (VStr "ECONNREFUSED"); ADisconnect;
     AGetExpenses 0 10; AConnect] in
  let st := run (constructor plainCredentials None (loaded 2 callableModels None)).2
                history in
  neverOpened (loaded 2 callableModels None)
  ∧ Forall (fun a => ¬ isOpened a) history
  ∧ disconnect st = (Normal tt, st).
Proof.
  intros history st.
  assert (H0 : neverOpened (loaded 2 callableModels None))
    by (split; [discriminate | constructor]).
  assert (Hh : Forall (fun a => ¬ isOpened a) history)
    by (repeat constructor; simpl; tauto).
  split; [exact H0 |]. split; [exact Hh |].
  exact (proj1 (proj2 (disconnect_never_connected plainCredentials None
                         (loaded 2 callableModels None) history H0 Hh))).
Defined.

(** ** Connecting *)

Lemma connect_when_connected (st : State) :
  isConnected st = true -> connect st = (Normal tt, st).
Proof. intros H. unfold connect, bind, getState, ret. by rewrite H. Qed.

Lemma setups_app (st : State) (l : list Call) :
  length (filter (fun c => isSetup c = true) (calls (mongoose st) ++ l)) =
    (setups st + length (filter (fun c => isSetup c = true) l))%nat.
Proof. unfold setups. by rewrite filter_app, length_app. Qed.

(** A call made while the store is not connected opens one more handle and
    makes it the store's, whether or not the call then goes on to the end. *)
Lemma connect_opens (st : State) :
  isConnected st = false ->
  let st' := (connect st).2 in
  _db st' = Some (length (handles (mongoose st)))
  ∧ length (handles (mongoose st')) = S (length (handles (mongoose st)))
  ∧ setups st' = S (setups st).
Proof.
  intros Hnot. unfold_store. rewrite Hnot. unfold setups. open_state st.
  repeat match goal with
  | |- context [match ?b with Factory _ => _ | _ => _ end] => destruct b; simpl
  | |- context [match ?o with Some _ => _ | None => _ end] => destruct o; simpl
  end;
    rewrite ?length_alter, !filter_app, !length_app; simpl;
    (split; [done | split; lia]).
Qed.

Lemma fire_emits_only (ls : list Listener) (arg : JSValue) (st : State) :
  _db (fire ls arg st).2 = _db st ∧ mongoose (fire ls arg st).2 = mongoose st.
Proof.
  revert st. induction ls as [| l ls IH]; intros st; [done |].
  cbn [fire]. unfold bind.
  assert (Hl : ∃ e, listener l arg st =
                      (Normal tt, setEmitted (emitted st ++ [e]) st))
    by (destruct l; eexists; reflexivity).
  destruct Hl as [e ->].
  destruct (IH (setEmitted (emitted st ++ [e]) st)) as [H1 H2].
  rewrite H1, H2. by destruct st.
Qed.

(** Once the driver opens the handle the store holds, the store is
    connected. *)
Lemma opened_connects (st : State) (h : nat) :
  _db st = Some h ->
  (h < length (handles (mongoose st)))%nat ->
  isConnected (opened h st).2 = true.
Proof.
  intros Hdb Hlt. unfold opened, Mongoose.driver, modify, getState.
  unfold bind at 1 2. simpl.
  match goal with |- context [fire ?ls ?arg ?s] =>
    destruct (fire_emits_only ls arg s) as [H1 H2]
  end.
  unfold isConnected. rewrite H1, H2. destruct st as [? ? ? ? ? d ?]; simpl in *.
  subst. destruct d; simpl in *.
  rewrite list_lookup_alter, decide_True by done.
  destruct (lookup_lt_is_Some_2 _ _ Hlt) as [hd ->]. reflexivity.
Qed.

(** C3, as the guard of [connect] has it: a new store is not connected
    before [connect()] is called; the call sets the connection up once;
    when that connection succeeds the store is connected, and from then on
    [connect()] does nothing at all, so that a second call adds no setup.
    In general [connect()] is without effect exactly on a store that is
    connected. *)
Theorem connect_once_connected (credentials : Obj) (st0 : State) :
  _db st0 = None ->
  let st1 := (constructor credentials noConnectOnInit st0).2 in
  let st2 := (connect st1).2 in
  let st3 := (opened (length (handles (mongoose st0))) st2).2 in
  isConnected st1 = false
  ∧ setups st2 = S (setups st1)
  ∧ isConnected st3 = true
  ∧ connect st3 = (Normal tt, st3)
  ∧ setups (connect st3).2 = S (setups st1)
  ∧ (∀ st, isConnected st = true -> connect st = (Normal tt, st))
  ∧ (∀ st, isConnected st = false -> setups (connect st).2 = S (setups st)).
Proof.
  intros Hdb st1 st2 st3.
  assert (H1 : isConnected st1 = false).
  { subst st1. unfold isConnected. destruct st0; simpl in *. by subst. }
  assert (Hh : handles (mongoose st1) = handles (mongoose st0)
               ∧ setups st1 = setups st0) by (by destruct st0).
  destruct Hh as [Hh Hs].
  destruct (connect_opens st1 H1) as (Hdb2 & Hlen & Hset). fold st2 in Hdb2, Hlen, Hset.
  rewrite Hh in Hdb2, Hlen.
  assert (H3 : isConnected st3 = true).
  { apply opened_connects; [done | lia]. }
  assert (Hs3 : setups st3 = setups st2).
  { subst st3. unfold opened, Mongoose.driver, modify, getState.
    unfold bind at 1 2. simpl.
    match goal with |- context [fire ?ls ?arg ?s] =>
      destruct (fire_emits_only ls arg s) as [_ H]
    end.
    unfold setups. rewrite H. by destruct st2 as [? ? ? ? ? [] ?]. }
  split; [exact H1 |]. split; [exact Hset |]. split; [exact H3 |].
  split; [by apply connect_when_connected |].
  split; [rewrite (connect_when_connected st3 H3); simpl; congruence |].
  split; [apply connect_when_connected |].
  intros st Hst. by apply connect_opens.
Qed.

Lemma connect_once_connected_witness :
  let st0 := loaded 2 callableModels None in
  let st3 := (opened 0 (connect (unconnected callableModels)).2).2 in
  _db st0 = None
  ∧ isConnected (unconnected callableModels) = false
  ∧ isConnected st3 = true
  ∧ connect st3 = (Normal tt, st3)
  ∧ setups (connect st3).2 = 1%nat.
Proof.
  intros st0 st3.
  destruct (connect_once_connected plainCredentials st0 eq_refl)
    as (H1 & _ & H3 & H4 & H5 & _).
  split; [reflexivity |]. split; [exact H1 |]. split; [exact H3 |].
  split; [exact H4 | exact H5].
Defined.

(** The claim as it is stated: on a driver whose handles start out in the
    connecting state, two calls in a row both find the store not connected,
    and the setup runs twice. *)
Lemma connect_twice_counterexample :
  let st := unconnected callableModels in
  isConnected st = false
  ∧ isConnected (connect st).2 = false
  ∧ setups st = 0%nat
  ∧ setups ((connect ;;; connect) st).2 = 2%nat
  ∧ calls (mongoose ((connect ;;; connect) st).2) =
      [CreateConnection "mongodb://db:27017/eun";
       On 0 "open" OnConnect; On 0 "error" OnError;
       CreateConnection "mongodb://db:27017/eun";
       On 1 "open" OnConnect; On 1 "error" OnError].
Proof. repeat split; vm_compute; reflexivity. Qed.

(** ** Connecting again after a failure *)

(** When the variables hold models and the driver's models do not answer a
    call with a model, a [connect()] that runs the setup either throws or
    leaves [Expense] not holding a model; in that case [putExpense] throws
    and the promises of the other expense operations are rejected. *)
Lemma connect_again_loses_model (st : State) (k : Kind) (h : nat) :
  Expense st = Model k h ->
  isConnected st = false ->
  (∀ b, modelCall (mongoose st) k (length (handles (mongoose st))) = Some b ->
        ¬ isModel b) ->
  (∃ v, (connect st).1 = Throw v)
  ∨ ((connect st).1 = Normal tt ∧ ¬ isModel (Expense (connect st).2)).
Proof.
  intros He Hnot Hcall. unfold_store. rewrite Hnot. open_state st. subst.
  simpl.
  destruct (modelCall0 k (length handles0)) as [b |] eqn:Hb; simpl;
    [| left; eauto].
  specialize (Hcall b eq_refl).
  destruct Income0 as [ki | ki hi |]; simpl.
  - right. by split.
  - destruct (modelCall0 ki (length handles0)); simpl;
      [right; by split | left; eauto].
  - left; eauto.
Qed.

Lemma not_model_breaks_queries (st : State) (s t : Z) :
  ¬ isModel (Expense st) ->
  ∃ message,
    getExpenses s t st = (Normal (Rejected (TypeError message)), st).
Proof.
  intros Hm. unfold_store.
  destruct (Expense st); simpl in *; try tauto; eexists; reflexivity.
Qed.

(** C8, as the code behaves: after a connection error the store is not
    connected, so a later [connect()] runs the setup again and applies
    [Expense] and [Income], which the first call replaced by the compiled
    models, as if they still were the functions of ./models.  With callable
    models the call returns and the new connection can open, but the two
    variables no longer hold models: [putExpense] throws and the promises
    of the other record operations are rejected.  With models that are
    plain objects the call itself throws, after the handle was opened and
    before any listener was bound to it. *)
Theorem reconnect_after_failure_breaks_store :
  let failure := [AFailed 0 (VStr "ECONNREFUSED")] in
  let st := reconnected callableModels in
  let st' := (opened 1 st).2 in
  isConnected (run (connecting callableModels) failure) = false
  ∧ (connect (run (connecting callableModels) failure)).1 = Normal tt
  ∧ Expense st = NotModel
  ∧ Income st = NotModel
  ∧ isConnected st' = true
  ∧ (putExpense (entry 5) st').1 = Throw (TypeError "is not a constructor")
  ∧ (getExpenses 0 10 st').1 =
      Normal (Rejected (TypeError "find is not a function"))
  ∧ (removeExpense "0" st').1 =
      Normal (Rejected (TypeError "remove is not a function"))
  ∧ (editExpense "0" (entry 5) st').1 =
      Normal (Rejected (TypeError "update is not a function"))
  ∧ (connect (run (connecting objectModels) failure)).1 =
      Throw (TypeError "is not a function")
  ∧ handles (mongoose (reconnected objectModels)) !! 1%nat =
      Some (mkHandle 2 [] []).
Proof. repeat split; vm_compute; reflexivity. Qed.

(** * Further properties of the store *)

(** Case analysis along a computation that has been unfolded. *)
Ltac cases :=
  repeat (simpl;
    match goal with
    | |- context [match ?b with Factory _ => _ | _ => _ end] => destruct b
    | |- context [match ?o with Some _ => _ | None => _ end] => destruct o
    | |- context [if truthy ?v then _ else _] => destruct (truthy v)
    | |- context [Mongoose.setDocs ?k _ _] => is_var k; destruct k
    end);
  simpl.

(** ** Notifications from the driver *)

Lemma fire_emits (ls : list Listener) (arg : JSValue) (st : State) :
  fire ls arg st = (Normal tt, setEmitted (emitted st ++ (eventOf arg <$> ls)) st).
Proof.
  revert st. induction ls as [| l ls IH]; intros st.
  - simpl. rewrite app_nil_r. by destruct st.
  - cbn [fire]. unfold bind.
    assert (Hl : listener l arg st =
                   (Normal tt, setEmitted (emitted st ++ [eventOf arg l]) st))
      by (destruct l; [reflexivity |]; simpl; unfold _onError, emit, modify;
          by destruct arg).
    rewrite Hl, IH. destruct st; simpl. by rewrite <- app_assoc.
Qed.

(** X1: a notification from the driver (a handle opened, or failed with
    any value) makes no driver call, opens and closes no handle, and
    leaves the handle the store holds, the two module-level variables, the
    credentials and both collections as they are: the listeners do nothing
    but emit, and the store does not try to connect again. *)
Theorem notifications_only_emit (h : nat) (v : JSValue) (st : State) :
  untouched st (opened h st).2
  ∧ untouched st (failed h v st).2.
Proof.
  unfold untouched, opened, failed, Mongoose.driver, modify, getState.
  unfold bind. simpl. rewrite !fire_emits.
  destruct st as [? ? ? ? ? [] ?]; simpl.
  rewrite !length_alter. repeat split; reflexivity.
Qed.

(** ** Disconnecting *)

Lemma disconnect_connected (st : State) :
  isConnected st = true ->
  ∃ db,
    _db st = Some db
    ∧ (disconnect st).1 = Normal tt
    ∧ calls (mongoose (disconnect st).2) = calls (mongoose st) ++ [Close db]
    ∧ emitted (disconnect st).2 = emitted st ++ [EDisconnect]
    ∧ isConnected (disconnect st).2 = false
    ∧ _db (disconnect st).2 = Some db
    ∧ Expense (disconnect st).2 = Expense st
    ∧ Income (disconnect st).2 = Income st
    ∧ expenseDocs (mongoose (disconnect st).2) = expenseDocs (mongoose st)
    ∧ incomeDocs (mongoose (disconnect st).2) = incomeDocs (mongoose st).
Proof.
  intros Hc. unfold disconnect, bind, getState. rewrite Hc. simpl.
  unfold isConnected in *.
  destruct (_db st) as [db |] eqn:Hdb; [| done].
  destruct (handles (mongoose st) !! db) as [hd |] eqn:Hhd; [| done].
  exists db. unfold_store. open_state st. subst.
  rewrite list_lookup_alter, decide_True, Hhd by done.
  repeat split; reflexivity.
Qed.

(** X2: on a connected store [disconnect()] asks the driver to close the
    handle the store holds, emits [disconnect] at once and nothing else,
    and leaves the store not connected; the handle stays in [_db], and the
    collections, credentials and module-level variables are not touched. *)
Theorem disconnect_closes_and_emits (st : State) :
  isConnected st = true ->
  ∃ db,
    _db st = Some db
    ∧ (disconnect st).1 = Normal tt
    ∧ calls (mongoose (disconnect st).2) = calls (mongoose st) ++ [Close db]
    ∧ emitted (disconnect st).2 = emitted st ++ [EDisconnect]
    ∧ isConnected (disconnect st).2 = false
    ∧ _db (disconnect st).2 = Some db
    ∧ Expense (disconnect st).2 = Expense st
    ∧ Income (disconnect st).2 = Income st
    ∧ expenseDocs (mongoose (disconnect st).2) = expenseDocs (mongoose st)
    ∧ incomeDocs (mongoose (disconnect st).2) = incomeDocs (mongoose st).
Proof. apply disconnect_connected. Qed.

Lemma disconnect_closes_and_emits_witness :
  isConnected shelf = true
  ∧ calls (mongoose (disconnect shelf).2) = calls (mongoose shelf) ++ [Close 0]
  ∧ emitted (disconnect shelf).2 = emitted shelf ++ [EDisconnect]
  ∧ isConnected (disconnect shelf).2 = false.
Proof.
  assert (Hc : isConnected shelf = true) by compute_done.
  destruct (disconnect_closes_and_emits shelf Hc)
    as (db & Hdb & _ & Hcalls & Hem & Hnot & _).
  assert (db = 0%nat) as -> by (cbv in Hdb; congruence).
  exact (conj Hc (conj Hcalls (conj Hem Hnot))).
Defined.

(** X3: [disconnect()] is idempotent on every store, connected or not: a
    second call in a row returns with the state the first call left. *)
Theorem disconnect_twice (st : State) :
  (disconnect ;;; disconnect) st = disconnect st.
Proof.
  unfold bind at 1.
  destruct (isConnected st) eqn:Hc.
  - destruct (disconnect_connected st Hc)
      as (db & _ & Hret & _ & _ & Hnot & _).
    destruct (disconnect st) as [r st'] eqn:Hd. simpl in *. subst r.
    by rewrite (disconnect_not_connected st' Hnot).
  - rewrite (disconnect_not_connected st Hc).
    by rewrite (disconnect_not_connected st Hc).
Qed.

(** ** What [connect] leaves behind *)

Lemma alter_last {A} (f : A -> A) (l : list A) (x : A) :
  alter f (length l) (l ++ [x]) = l ++ [f x].
Proof. by rewrite alter_app_r_alt, Nat.sub_diag by lia. Qed.

Lemma connect_returns (st : State) :
  isConnected st = false ->
  (connect st).1 = Normal tt ->
  let h := length (handles (mongoose st)) in
  handles (mongoose (connect st).2) =
    handles (mongoose st) ++ [mkHandle (freshState (mongoose st)) [OnConnect] [OnError]]
  ∧ _db (connect st).2 = Some h
  ∧ emitted (connect st).2 = emitted st
  ∧ calls (mongoose (connect st).2) =
      calls (mongoose st) ++
        [CreateConnection (connectionUri (_credentials st));
         On h "open" OnConnect; On h "error" OnError].
Proof.
  intros Hnot. unfold connectionUri. unfold_store. rewrite Hnot. open_state st.
  cases; intros Hret; try discriminate;
    rewrite !alter_last, <- !app_assoc; simpl; repeat split; reflexivity.
Qed.

(** X4: a [connect()] that returns has opened one handle, made it the
    store's, and bound exactly its two listeners to it, emitting nothing
    itself.  When the driver later opens that handle the store emits
    [connect] once; when the handle fails with a value the store emits
    [error] once, with the value as an [Error]. *)
Theorem connect_binds_listeners (v : JSValue) (st : State) :
  isConnected st = false ->
  (connect st).1 = Normal tt ->
  let h := length (handles (mongoose st)) in
  let st' := (connect st).2 in
  handles (mongoose st') !! h =
    Some (mkHandle (freshState (mongoose st)) [OnConnect] [OnError])
  ∧ emitted st' = emitted st
  ∧ emitted (opened h st').2 = emitted st ++ [EConnect]
  ∧ isConnected (opened h st').2 = true
  ∧ emitted (failed h v st').2 =
      emitted st ++ [EError (if instanceofError v then v else newError v)].
Proof.
  intros Hnot Hret h st'.
  destruct (connect_returns st Hnot Hret) as (Hh & Hdb & Hem & _).
  fold st' h in Hh, Hdb, Hem.
  assert (Hlook : handles (mongoose st') !! h =
            Some (mkHandle (freshState (mongoose st)) [OnConnect] [OnError]))
    by (rewrite Hh; by apply list_lookup_middle).
  split; [exact Hlook |]. split; [exact Hem |].
  split; [| split].
  - unfold opened, Mongoose.driver, modify, getState. unfold bind. simpl.
    rewrite fire_emits. destruct st' as [? ? ? ? ? [] ?]; simpl in *.
    rewrite list_lookup_alter, decide_True, Hlook by done. simpl. by subst.
  - apply opened_connects; [done |]. rewrite Hh, length_app. simpl. lia.
  - unfold failed, Mongoose.driver, modify, getState. unfold bind. simpl.
    rewrite fire_emits. destruct st' as [? ? ? ? ? [] ?]; simpl in *.
    rewrite list_lookup_alter, decide_True, Hlook by done. simpl. by subst.
Qed.

Lemma connect_binds_listeners_witness :
  let st := unconnected callableModels in
  isConnected st = false
  ∧ (connect st).1 = Normal tt
  ∧ emitted (opened 0 (connect st).2).2 = [EConnect]
  ∧ emitted (failed 0 (VStr "ECONNREFUSED") (connect st).2).2 =
      [EError (VError "Error" "ECONNREFUSED")].
Proof.
  intros st.
  assert (Hnot : isConnected st = false) by compute_done.
  assert (Hret : (connect st).1 = Normal tt) by compute_done.
  destruct (connect_binds_listeners (VStr "ECONNREFUSED") st Hnot Hret)
    as (_ & _ & Hopen & _ & Hfail).
  exact (conj Hnot (conj Hret (conj Hopen Hfail))).
Defined.

(** X5: the listeners bound to a handle stay bound when the store moves on
    to another handle.  When a handle that is not the store's opens late,
    the store still emits [connect], although it is not connected. *)
Theorem late_open_on_old_handle (st : State) (h : nat) (hd : Handle) :
  handles (mongoose st) !! h = Some hd ->
  openListeners hd = [OnConnect] ->
  _db st ≠ Some h ->
  isConnected st = false ->
  emitted (opened h st).2 = emitted st ++ [EConnect]
  ∧ isConnected (opened h st).2 = false.
Proof.
  intros Hh Hl Hdb Hnot.
  unfold opened, Mongoose.driver, modify, getState. unfold bind. simpl.
  rewrite fire_emits. unfold isConnected in *.
  destruct st as [? ? db ? ? [] ?]; simpl in *.
  rewrite list_lookup_alter, decide_True, Hh by done. simpl. rewrite Hl.
  split; [done |].
  destruct db as [db |]; [| done].
  rewrite list_lookup_alter, decide_False by congruence. exact Hnot.
Qed.

Lemma late_open_on_old_handle_witness :
  handles (mongoose connectedTwice) !! 0%nat = Some (mkHandle 2 [OnConnect] [OnError])
  ∧ _db connectedTwice ≠ Some 0%nat
  ∧ isConnected connectedTwice = false
  ∧ emitted (opened 0 connectedTwice).2 = emitted connectedTwice ++ [EConnect]
  ∧ isConnected (opened 0 connectedTwice).2 = false.
Proof.
  assert (Hh : handles (mongoose connectedTwice) !! 0%nat =
                 Some (mkHandle 2 [OnConnect] [OnError])) by compute_done.
  assert (Hdb : _db connectedTwice ≠ Some 0%nat) by compute_done.
  assert (Hnot : isConnected connectedTwice = false) by compute_done.
  destruct (late_open_on_old_handle connectedTwice 0 _ Hh eq_refl Hdb Hnot)
    as [Hem Hc].
  exact (conj Hh (conj Hdb (conj Hnot (conj Hem Hc)))).
Defined.

(** ** The constructor *)

Lemma constructor_unfold (credentials : Obj) (options : option Obj) (st0 : State) :
  let st1 :=
    setConnectOnInit
      (defaultTo (get (default ∅ options) "connectOnInit") (VBool true))
      (setCredentials
         {| host := get credentials "host";
            database := get credentials "database";
            username := defaultTo (get credentials "username") VNull;
            password := defaultTo (get credentials "password") VNull;
            authSource := defaultTo (get credentials "authSource") VNull;
            port := defaultTo (get credentials "port") (VNum 27017) |}
         st0) in
  constructor credentials options st0 =
    if connectsOnInit options then connect st1 else (Normal tt, st1).
Proof.
  intros st1. unfold constructor, connectsOnInit, bind, modify, getState, ret.
  simpl. fold st1. by destruct (truthy _).
Qed.

Lemma connect_keeps (st : State) :
  emitted (connect st).2 = emitted st
  ∧ _credentials (connect st).2 = _credentials st
  ∧ expenseDocs (mongoose (connect st).2) = expenseDocs (mongoose st)
  ∧ incomeDocs (mongoose (connect st).2) = incomeDocs (mongoose st).
Proof.
  unfold_store. destruct (isConnected st); [done |].
  open_state st. cases; repeat split; reflexivity.
Qed.

(** X6: the constructor stores the credentials with their defaults (absent
    username, password and authSource become [null], an absent port
    27017), never emits, and runs the connection setup exactly when
    [connectOnInit] is left out, [null], or true in the sense of [if]: an
    explicit false, 0 or empty string leaves the driver alone.  On a module
    that was just loaded it never throws, whatever the credentials. *)
Theorem constructor_defaults (credentials : Obj) (options : option Obj)
    (st0 : State) (fresh : Z) (call : Kind -> nat -> option Binding)
    (err : option JSValue) :
  isConnected st0 = false ->
  let st := (constructor credentials options st0).2 in
  _credentials st =
    {| host := get credentials "host";
       database := get credentials "database";
       username := defaultTo (get credentials "username") VNull;
       password := defaultTo (get credentials "password") VNull;
       authSource := defaultTo (get credentials "authSource") VNull;
       port := defaultTo (get credentials "port") (VNum 27017) |}
  ∧ emitted st = emitted st0
  ∧ setups st = (if connectsOnInit options then S (setups st0) else setups st0)
  ∧ (if connectsOnInit options then True
     else calls (mongoose st) = calls (mongoose st0) ∧ _db st = _db st0)
  ∧ (constructor credentials options (loaded fresh call err)).1 = Normal tt.
Proof.
  intros Hnot st. subst st. rewrite !constructor_unfold.
  match goal with |- context [connect ?s] => set (st1 := s) end.
  assert (H1 : isConnected st1 = false) by (by destruct st0).
  destruct (connectsOnInit options).
  - destruct (connect_keeps st1) as (Hem & Hcr & _).
    destruct (connect_opens st1 H1) as (_ & _ & Hs).
    rewrite Hem, Hcr, Hs.
    repeat split; by destruct st0.
  - repeat split; by destruct st0.
Qed.

(** Options [{connectOnInit: 0}]: the store is constructed, with the
    defaults filled in, and the driver is not called. *)
Lemma constructor_defaults_witness :
  let options : option Obj := Some (<["connectOnInit" := VNum 0]> ∅) in
  let st0 := loaded 2 callableModels None in
  let st := (constructor partialCredentials options st0).2 in
  isConnected st0 = false
  ∧ username (_credentials st) = VStr "omar"
  ∧ authSource (_credentials st) = VNull
  ∧ port (_credentials st) = VNum 27017
  ∧ setups st = 0%nat.
Proof.
  intros options st0 st.
  destruct (constructor_defaults partialCredentials options st0 2
              callableModels None eq_refl) as (Hc & _ & Hs & _).
  fold st in Hc, Hs.
  split; [reflexivity |].
  rewrite Hc.
  split; [compute_done |]. split; [compute_done |]. split; [compute_done |].
  etrans; [exact Hs | compute_done].
Defined.

(** ** Who emits *)

Lemma emitted_silent (a : Action) (st : State) :
  isSilent a -> emitted (step st a) = emitted st.
Proof.
  intros Ha. destruct a; simpl in *; try tauto; clear Ha.
  - apply connect_keeps.
  - unfold_store. open_state st. cases; reflexivity.
  - unfold_store. open_state st. cases; reflexivity.
  - unfold_store. open_state st. cases; reflexivity.
  - unfold_store. open_state st. cases; reflexivity.
  - unfold_store. open_state st. cases; reflexivity.
  - unfold_store. open_state st. cases; reflexivity.
  - unfold_store. open_state st. cases; reflexivity.
  - unfold_store. open_state st. cases; reflexivity.
Qed.

(** X7: events come only from [disconnect()] and from the driver's
    notifications.  [connect()] and every record operation return without
    emitting anything, also when they throw, reject, or when the driver
    reports an error. *)
Theorem silent_actions_emit_nothing (a : Action) (st : State) :
  isSilent a -> emitted (step st a) = emitted st.
Proof. apply emitted_silent. Qed.

Lemma silent_actions_emit_nothing_witness :
  isSilent (AGetExpenses 0 10)
  ∧ emitted (step (failing diskFull shelf) (AGetExpenses 0 10)) =
      emitted (failing diskFull shelf).
Proof.
  split; [exact I |].
  exact (silent_actions_emit_nothing (AGetExpenses 0 10)
           (failing diskFull shelf) I).
Defined.

(** ** Reading *)

(** X8: [getExpenses] and [getIncome] only read.  Whatever the driver
    answers, the call returns a promise and never throws, the collections,
    the variables and the store's handle are as before, and the only trace
    is one [find] in the driver's log, with the window as its range, the
    eight selected paths and the descending sort on the timestamp.  When
    the driver reports an error the promise is rejected with that very
    value; a reported value that is false in the sense of [if] is not taken
    for an error. *)
Theorem range_query_reads_only (which : Kind) (s e : Z) (st : State)
    (k : Kind) (h : nat) :
  variable which st = Model k h ->
  let r := getBetween which s e st in
  calls (mongoose r.2) =
    calls (mongoose st) ++
      [Find k (Between "timestamp" s e) selected ("timestamp", (-1)%Z)]
  ∧ expenseDocs (mongoose r.2) = expenseDocs (mongoose st)
  ∧ incomeDocs (mongoose r.2) = incomeDocs (mongoose st)
  ∧ handles (mongoose r.2) = handles (mongoose st)
  ∧ _db r.2 = _db st
  ∧ Expense r.2 = Expense st
  ∧ Income r.2 = Income st
  ∧ r.1 = Normal
            (match fault (mongoose st) with
             | Some err => if truthy err then Rejected err else Resolved None
             | None => Resolved (Some (found s e (Mongoose.docs k (mongoose st))))
             end).
Proof.
  intros Hv. unfold getBetween. unfold_store.
  open_model which st Hv; simpl; cases; repeat split; reflexivity.
Qed.

Lemma range_query_reads_only_witness :
  let st := failing diskFull shelf in
  variable KExpense st = Model KExpense 0
  ∧ (getExpenses 0 1000 st).1 = Normal (Rejected diskFull)
  ∧ expenseDocs (mongoose (getExpenses 0 1000 st).2) = expenseDocs (mongoose st).
Proof.
  intros st.
  destruct (range_query_reads_only KExpense 0 1000 st KExpense 0 eq_refl)
    as (_ & Hd & _ & _ & _ & _ & _ & Hr).
  split; [reflexivity |]. split; [exact Hr | exact Hd].
Defined.

(** X9: before [connect()] has run once in the process the variables
    [Expense] and [Income] hold the functions of ./models, which have no
    [find], [remove] or [update].  As long as a variable holds such a
    function, the range query, the removal and the edit of that kind make
    no driver call and change nothing: each returns a promise rejected
    with a [TypeError]. *)
Theorem record_operations_need_a_model (which k : Kind) (s e : Z) (id : string)
    (changes : Obj) (st : State) :
  variable which st = Factory k ->
  (∃ message,
     getBetween which s e st = (Normal (Rejected (TypeError message)), st))
  ∧ (∃ message,
       removeById which id st = (Normal (Rejected (TypeError message)), st))
  ∧ (∃ message,
       editById which id changes st =
         (Normal (Rejected (TypeError message)), st)).
Proof.
  intros Hv. unfold getBetween, removeById, editById. unfold_store.
  destruct which; simpl in Hv; rewrite Hv; simpl;
    repeat split; eexists; reflexivity.
Qed.

Lemma record_operations_need_a_model_witness :
  let st := unconnected callableModels in
  variable KExpense st = Factory KExpense
  ∧ ∃ message,
      getExpenses 0 10 st = (Normal (Rejected (TypeError message)), st).
Proof.
  intros st.
  assert (Hv : variable KExpense st = Factory KExpense) by compute_done.
  destruct (record_operations_need_a_model KExpense KExpense 0 10 "0" ∅ st Hv)
    as (Hg & _).
  exact (conj Hv Hg).
Defined.

(** ** Over a whole history *)

Lemma emitted_step (a : Action) (st : State) :
  ∃ events,
    emitted (step st a) = emitted st ++ events
    ∧ Forall carriesError events.
Proof.
  destruct a;
    try (exists []; rewrite app_nil_r; split; [by apply emitted_silent | constructor]).
  - simpl. destruct (isConnected st) eqn:Hc.
    + destruct (disconnect_connected st Hc) as (db & _ & _ & _ & Hem & _).
      exists [EDisconnect]. split; [exact Hem | by repeat constructor].
    + rewrite (disconnect_not_connected st Hc). exists [].
      rewrite app_nil_r. split; [done | constructor].
  - simpl. unfold opened, Mongoose.driver, modify, getState. unfold bind. simpl.
    rewrite fire_emits. eexists. split; [by destruct st |].
    apply Forall_fmap, Forall_true. by intros [].
  - simpl. unfold failed, Mongoose.driver, modify, getState. unfold bind. simpl.
    rewrite fire_emits. eexists. split; [by destruct st |].
    apply Forall_fmap, Forall_true. intros []; simpl; [done |].
    by destruct error.
Qed.

(** X10: over every history of method calls and driver notifications, in
    any order and with any values, each [error] event the store has
    emitted carries an [Error] object. *)
Theorem error_events_carry_errors (history : list Action) (st : State) :
  Forall carriesError (emitted st) ->
  Forall carriesError (emitted (run st history)).
Proof.
  revert st. induction history as [| a history IH]; intros st Hst; [done |].
  simpl. apply IH.
  destruct (emitted_step a st) as (events & -> & Hev).
  apply Forall_app. by split.
Qed.

Lemma error_events_carry_errors_witness :
  let history :=
    [AFailed 0 VObject; AConnect; AFailed 1 (VNum 7); AFailed 0 VUndefined;
     AOpened 1; ADisconnect] in
  Forall carriesError (emitted (connecting callableModels))
  ∧ Forall carriesError (emitted (run (connecting callableModels) history)).
Proof.
  intros history.
  assert (H0 : Forall carriesError (emitted (connecting callableModels)))
    by (vm_compute; constructor).
  exact (conj H0 (error_events_carry_errors history _ H0)).
Defined.

Ltac appended :=
  first
    [ exists []; rewrite app_nil_r; split; [reflexivity |];
      split; [constructor | reflexivity]
    | eexists; split; [rewrite <- ?app_assoc; reflexivity |];
      split; [repeat constructor | reflexivity] ].

Lemma calls_step (a : Action) (st : State) :
  ∃ new,
    calls (mongoose (step st a)) = calls (mongoose st) ++ new
    ∧ Forall (opensWith (connectionUri (_credentials st))) new
    ∧ _credentials (step st a) = _credentials st.
Proof.
  destruct a; simpl.
  - unfold connectionUri. unfold_store. destruct (isConnected st).
    + simpl. appended.
    + open_state st. cases; appended.
  - unfold_store. destruct (isConnected st); simpl; [| appended].
    open_state st. cases; appended.
  - unfold_store. open_state st. cases; appended.
  - unfold_store. open_state st. cases; appended.
  - unfold_store. open_state st. cases; appended.
  - unfold_store. open_state st. cases; appended.
  - unfold_store. open_state st. cases; appended.
  - unfold_store. open_state st. cases; appended.
  - unfold_store. open_state st. cases; appended.
  - unfold_store. open_state st. cases; appended.
  - unfold opened, Mongoose.driver, modify, getState. unfold bind. simpl.
    rewrite fire_emits. open_state st. appended.
  - unfold failed, Mongoose.driver, modify, getState. unfold bind. simpl.
    rewrite fire_emits. open_state st. appended.
Qed.

Lemma calls_run (history : list Action) (st : State) (c : Credentials) :
  _credentials st = c ->
  Forall (opensWith (connectionUri c)) (calls (mongoose st)) ->
  _credentials (run st history) = c
  ∧ Forall (opensWith (connectionUri c)) (calls (mongoose (run st history))).
Proof.
  revert st. induction history as [| a history IH]; intros st Hc Hcalls; [done |].
  simpl. destruct (calls_step a st) as (new & Hnew & Hok & Hcred).
  apply IH; [congruence |].
  rewrite Hnew. apply Forall_app. split; [done |]. by rewrite Hc in Hok.
Qed.

(** X11: the credentials of a store are fixed by its constructor.  Over
    every history that follows, no method and no notification changes
    them, and every handle the store asks the driver for, at construction
    or at any later [connect()], is asked for with the one connection
    string of these credentials. *)
Theorem one_uri_per_store (credentials : Obj) (options : option Obj)
    (history : list Action) (st0 : State) :
  calls (mongoose st0) = [] ->
  let c :=
    {| host := get credentials "host";
       database := get credentials "database";
       username := defaultTo (get credentials "username") VNull;
       password := defaultTo (get credentials "password") VNull;
       authSource := defaultTo (get credentials "authSource") VNull;
       port := defaultTo (get credentials "port") (VNum 27017) |} in
  let st := run (constructor credentials options st0).2 history in
  _credentials st = c
  ∧ Forall (opensWith (connectionUri c)) (calls (mongoose st)).
Proof.
  intros Hcalls c st. subst st. rewrite constructor_unfold.
  match goal with |- context [connect ?s] => set (st1 := s) end.
  assert (H1 : _credentials st1 = c) by (by destruct st0).
  assert (H2 : Forall (opensWith (connectionUri c)) (calls (mongoose st1))).
  { replace (calls (mongoose st1)) with (@nil Call) by (by destruct st0).
    constructor. }
  destruct (connectsOnInit options); simpl.
  - destruct (calls_step AConnect st1) as (new & Hnew & Hok & Hcred).
    simpl in *. apply calls_run; [congruence |].
    rewrite Hnew. apply Forall_app. split; [done |]. by rewrite H1 in Hok.
  - by apply calls_run.
Qed.

Lemma one_uri_per_store_witness :
  let history := [AFailed 0 (VStr "ECONNREFUSED"); AConnect; AOpened 1;
                  ADisconnect; AConnect] in
  let st := run (constructor fullCredentials None (loaded 2 callableModels None)).2
                history in
  calls (mongoose (loaded 2 callableModels None)) = []
  ∧ Forall (opensWith "mongodb://omar:secret@db:27018/eun?authSource=admin")
      (calls (mongoose st)).
Proof.
  intros history st.
  destruct (one_uri_per_store fullCredentials None history
              (loaded 2 callableModels None) eq_refl) as [_ H].
  split; [reflexivity |].
  fold st in H.
  replace "mongodb://omar:secret@db:27018/eun?authSource=admin"
    with (connectionUri
            {| host := get fullCredentials "host";
               database := get fullCredentials "database";
               username := defaultTo (get fullCredentials "username") VNull;
               password := defaultTo (get fullCredentials "password") VNull;
               authSource := defaultTo (get fullCredentials "authSource") VNull;
               port := defaultTo (get fullCredentials "port") (VNum 27017) |})
    by compute_done.
  exact H.
Defined.

(** ** The public view *)

Lemma get_expenseModel (expense : Obj) (key : string) :
  get (expenseModel expense) key =
    if decide (key ∈ publicFields) then get expense key else VUndefined.
Proof.
  unfold get at 1, expenseModel.
  destruct (decide (key ∈ publicFields)) as [Hin | Hout].
  - unfold publicFields in Hin. rewrite !elem_of_cons, elem_of_nil in Hin.
    destruct Hin as [-> | [-> | [-> | [-> | [-> | []]]]]]; by simplify_map_eq.
  - unfold publicFields in Hout. rewrite !not_elem_of_cons in Hout.
    destruct Hout as (? & ? & ? & ? & ? & _).
    by rewrite !lookup_insert_ne, lookup_empty by done.
Qed.

Lemma expenseModel_ext (e1 e2 : Obj) :
  (∀ key, key ∈ publicFields -> get e1 key = get e2 key) ->
  expenseModel e1 = expenseModel e2.
Proof.
  intros H. unfold expenseModel.
  rewrite !H by (unfold publicFields; set_solver). reflexivity.
Qed.

(** X12: the public view of an expense has exactly the keys account,
    currency, timestamp, description and availableCredit, each with the
    value the expense has for it and [undefined] when the expense lacks
    it; every other field (the identifier, the amount, the category) is
    dropped.  The view depends on these five fields only, and viewing a
    view changes nothing. *)
Theorem expenseModel_view (expense other : Obj) (key : string) :
  dom (expenseModel expense) = list_to_set publicFields
  ∧ get (expenseModel expense) key =
      (if decide (key ∈ publicFields) then get expense key else VUndefined)
  ∧ expenseModel (expenseModel expense) = expenseModel expense
  ∧ (expenseModel expense = expenseModel other <->
     ∀ field, field ∈ publicFields -> get expense field = get other field).
Proof.
  split; [| split; [apply get_expenseModel | split]].
  - unfold expenseModel. rewrite !dom_insert_L, dom_empty_L.
    unfold publicFields. simpl. set_solver.
  - apply expenseModel_ext. intros field Hf.
    by rewrite get_expenseModel, decide_True.
  - split; [| apply expenseModel_ext].
    intros Heq field Hf.
    assert (H1 := get_expenseModel expense field).
    assert (H2 := get_expenseModel other field).
    rewrite decide_True in H1, H2 by done.
    by rewrite <- H1, <- H2, Heq.
Qed.

Lemma round_trip_record (r : Obj) (s e : Z) (st : State) (k : Kind) (h : nat) :
  Expense st = Model k h ->
  fault (mongoose st) = None ->
  inWindow s e r ->
  ∃ l d,
    (getExpenses s e (putExpense r st).2).1 = Normal (Resolved (Some l))
    ∧ d ∈ l
    ∧ ∀ key, key ∈ Mongoose.schemaPaths -> get d key = get r key.
Proof.
  intros He Hf Hw.
  destruct (putExpense_stores r st k h He Hf) as (_ & He' & Hf' & Hdocs).
  set (st' := (putExpense r st).2) in *.
  set (d0 := <["_id" := VStr (pretty (nextId (mongoose st)))]>
               (Mongoose.select Mongoose.schemaPaths r)) in *.
  exists (found s e (Mongoose.docs k (mongoose st'))), (Mongoose.select selected d0).
  split; [exact (getBetween_found KExpense s e st' k h He' Hf') |].
  assert (Hkeys : ∀ key, key ∈ Mongoose.schemaPaths ->
                    get (Mongoose.select selected d0) key = get r key)
    by (intros key Hk; by apply get_constructed).
  split; [| exact Hkeys].
  rewrite query_window, Hdocs. apply list_elem_of_fmap_2.
  apply list_elem_of_filter. split; [| set_solver].
  unfold inWindow, timestampOf in *.
  rewrite <- (Hkeys "timestamp"), get_select, decide_True in Hw
    by compute_done.
  done.
Qed.

(** X13: the public view survives the store.  An expense put with
    [putExpense] on a driver that reports no error is among the records
    [getExpenses] returns for a window holding its timestamp, and the
    public view of the record returned is the public view of the object
    that was put. *)
Theorem public_view_round_trip (r : Obj) (s e : Z) (st : State)
    (k : Kind) (h : nat) :
  Expense st = Model k h ->
  fault (mongoose st) = None ->
  inWindow s e r ->
  ∃ l d,
    (getExpenses s e (putExpense r st).2).1 = Normal (Resolved (Some l))
    ∧ d ∈ l
    ∧ expenseModel d = expenseModel r.
Proof.
  intros He Hf Hw.
  destruct (round_trip_record r s e st k h He Hf Hw) as (l & d & Hl & Hd & Hkeys).
  exists l, d. split; [done |]. split; [done |].
  apply expenseModel_ext. intros key Hk. apply Hkeys.
  assert (Hsub : Forall (fun f => f ∈ Mongoose.schemaPaths) publicFields)
    by compute_done.
  rewrite Forall_forall in Hsub. by apply Hsub.
Qed.

Lemma public_view_round_trip_witness :
  Expense shelf = Model KExpense 0
  ∧ fault (mongoose shelf) = None
  ∧ inWindow 100 200 (entry 120)
  ∧ ∃ l d,
      (getExpenses 100 200 (putExpense (entry 120) shelf).2).1 =
        Normal (Resolved (Some l))
      ∧ d ∈ l
      ∧ expenseModel d = expenseModel (entry 120).
Proof.
  assert (Hw : inWindow 100 200 (entry 120)) by compute_done.
  split; [reflexivity |]. split; [reflexivity |]. split; [exact Hw |].
  exact (public_view_round_trip (entry 120) 100 200 shelf KExpense 0
           eq_refl eq_refl Hw).
Defined.

(** ** Removing and editing, then reading *)

Lemma elem_of_found (s e : Z) (l : list Obj) (d : Obj) :
  d ∈ found s e l <->
  ∃ d0, d = Mongoose.select selected d0 ∧ d0 ∈ l ∧ inWindow s e d0.
Proof.
  rewrite query_window, list_elem_of_fmap.
  split; intros (d0 & -> & H); exists d0; (split; [done |]);
    rewrite list_elem_of_filter in *; tauto.
Qed.

Lemma get_id_select (d : Obj) :
  get (Mongoose.select selected d) "_id" = get d "_id".
Proof. rewrite get_select, decide_True; [done | compute_done]. Qed.

Lemma removeById_effect (which : Kind) (id : string) (st : State)
    (k : Kind) (h : nat) :
  variable which st = Model k h ->
  fault (mongoose st) = None ->
  let st' := (removeById which id st).2 in
  (removeById which id st).1 = Normal (Resolved tt)
  ∧ variable which st' = Model k h
  ∧ fault (mongoose st') = None
  ∧ Mongoose.docs k (mongoose st') =
      filter (fun d => get d "_id" ≠ VStr id) (Mongoose.docs k (mongoose st)).
Proof.
  intros Hv Hf. unfold removeById. unfold_store.
  open_model which st Hv; simpl; destruct k; simpl;
    (repeat split; [reflexivity ..|]);
    apply list_filter_iff; intros d; simpl;
    rewrite negb_True, bool_decide_spec; tauto.
Qed.

(** X14: once [removeExpense(id)] (or [removeIncome(id)]) has resolved on
    a driver that reports no error, no range query of that kind returns a
    record with that identifier, whatever the window; the records with
    other identifiers are found as before. *)
Theorem removed_is_not_found (which : Kind) (id : string) (s e : Z)
    (st : State) (k : Kind) (h : nat) :
  variable which st = Model k h ->
  fault (mongoose st) = None ->
  let st' := (removeById which id st).2 in
  (removeById which id st).1 = Normal (Resolved tt)
  ∧ ∃ l,
      (getBetween which s e st').1 = Normal (Resolved (Some l))
      ∧ absent id l
      ∧ ∀ d, d ∈ l <->
             d ∈ found s e (Mongoose.docs k (mongoose st))
             ∧ get d "_id" ≠ VStr id.
Proof.
  intros Hv Hf st'.
  destruct (removeById_effect which id st k h Hv Hf) as (Hr & Hv' & Hf' & Hdocs).
  fold st' in Hv', Hf', Hdocs.
  split; [exact Hr |].
  exists (found s e (Mongoose.docs k (mongoose st'))).
  split; [by apply getBetween_found with h |].
  assert (Hiff : ∀ d, d ∈ found s e (Mongoose.docs k (mongoose st')) <->
                   d ∈ found s e (Mongoose.docs k (mongoose st))
                   ∧ get d "_id" ≠ VStr id).
  { intros d. rewrite !elem_of_found, Hdocs. split.
    - intros (d0 & -> & Hin & Hw). apply list_elem_of_filter in Hin as [Hid Hin].
      rewrite get_id_select. split; [| done]. by exists d0.
    - intros [(d0 & -> & Hin & Hw) Hid]. rewrite get_id_select in Hid.
      exists d0. split; [done |]. split; [| done].
      by apply list_elem_of_filter. }
  split; [| exact Hiff].
  unfold absent. rewrite Forall_forall. intros d Hd. by apply Hiff in Hd as [_ ?].
Qed.

Lemma removed_is_not_found_witness :
  variable KExpense shelf = Model KExpense 0
  ∧ fault (mongoose shelf) = None
  ∧ (removeExpense "1" shelf).1 = Normal (Resolved tt)
  ∧ ∃ l,
      (getExpenses 0 1000 (removeExpense "1" shelf).2).1 =
        Normal (Resolved (Some l))
      ∧ absent "1" l.
Proof.
  destruct (removed_is_not_found KExpense "1" 0 1000 shelf KExpense 0
              eq_refl eq_refl) as (Hr & l & Hl & Habs & _).
  split; [reflexivity |]. split; [reflexivity |]. split; [exact Hr |].
  exists l. exact (conj Hl Habs).
Defined.

Lemma get_updated (changes d : Obj) (key : string) :
  get (Mongoose.serialize (updateDocument changes) ∪ d) key =
    if decide (key ∈ edited) then Mongoose.onWire (get changes key)
    else get d key.
Proof.
  unfold get at 1. destruct (decide (key ∈ edited)) as [Hin | Hout].
  - by rewrite (lookup_union_Some_l _ _ _ _
                  (serialized_update_lookup changes key Hin)).
  - by rewrite lookup_union_r by (by apply serialized_update_others).
Qed.

Lemma editById_effect (which : Kind) (id : string) (changes : Obj) (st : State)
    (k : Kind) (h : nat) :
  variable which st = Model k h ->
  fault (mongoose st) = None ->
  let st' := (editById which id changes st).2 in
  (editById which id changes st).1 = Normal (Resolved tt)
  ∧ variable which st' = Model k h
  ∧ fault (mongoose st') = None
  ∧ Mongoose.docs k (mongoose st') =
      Mongoose.updateFirst (ById id)
        (Mongoose.serialize (updateDocument changes))
        (Mongoose.docs k (mongoose st)).
Proof.
  intros Hv Hf. unfold editById, updateDocument. unfold_store.
  open_model which st Hv; simpl; destruct k; simpl; repeat split; reflexivity.
Qed.

(** X15: an edit that gives [null] as timestamp takes the record out of
    every range query.  On a driver that carries the update out, when the
    identifier names one stored record and [changes] give strings as
    description and category and [null] as timestamp, the edit resolves,
    and afterwards no window, however wide, returns a record with that
    identifier: the stored timestamp is no longer a number, and the range
    filter selects numbers only. *)
Theorem edit_with_null_timestamp_hides_record (which : Kind) (id : string)
    (changes : Obj) (s e : Z) (st : State) (k : Kind) (h : nat)
    (l1 l2 : list Obj) (d : Obj) :
  variable which st = Model k h ->
  fault (mongoose st) = None ->
  Mongoose.docs k (mongoose st) = l1 ++ d :: l2 ->
  absent id l1 ->
  absent id l2 ->
  get d "_id" = VStr id ->
  isString (get changes "description") ->
  get changes "timestamp" = VNull ->
  isString (get changes "category") ->
  (editById which id changes st).1 = Normal (Resolved tt)
  ∧ ∃ l,
      (getBetween which s e (editById which id changes st).2).1 =
        Normal (Resolved (Some l))
      ∧ absent id l.
Proof.
  intros Hv Hf Hdocs Hl1 Hl2 Hd _ Hts _.
  destruct (editById_effect which id changes st k h Hv Hf)
    as (Hr & Hv' & Hf' & Hafter).
  set (st' := (editById which id changes st).2) in *.
  rewrite Hdocs, (updateFirst_first id _ d l1 l2 Hl1 Hd) in Hafter.
  split; [exact Hr |].
  exists (found s e (Mongoose.docs k (mongoose st'))).
  split; [by apply getBetween_found with h |].
  unfold absent. rewrite Forall_forall. intros x Hx.
  apply elem_of_found in Hx as (d0 & -> & Hin & Hw).
  rewrite get_id_select. rewrite Hafter in Hin.
  apply elem_of_app in Hin as [Hin | Hin].
  - unfold absent in Hl1. rewrite Forall_forall in Hl1. by apply Hl1.
  - apply elem_of_cons in Hin as [-> | Hin].
    + exfalso. unfold inWindow, timestampOf in Hw.
      rewrite get_updated, decide_True, Hts in Hw by compute_done.
      exact Hw.
    + unfold absent in Hl2. rewrite Forall_forall in Hl2. by apply Hl2.
Qed.

Lemma edit_with_null_timestamp_hides_record_witness :
  let changes : Obj :=
    <["description" := VStr "tea"]>
      (<["timestamp" := VNull]> (<["category" := VStr "drinks"]> ∅)) in
  variable KExpense shelf = Model KExpense 0
  ∧ absent "1" [stored "0" 50]
  ∧ absent "1" [stored "2" 150]
  ∧ get changes "timestamp" = VNull
  ∧ (editExpense "1" changes shelf).1 = Normal (Resolved tt)
  ∧ ∃ l,
      (getExpenses 0 1000 (editExpense "1" changes shelf).2).1 =
        Normal (Resolved (Some l))
      ∧ absent "1" l.
Proof.
  intros changes.
  assert (H1 : absent "1" [stored "0" 50]) by (unfold absent; compute_done).
  assert (H2 : absent "1" [stored "2" 150]) by (unfold absent; compute_done).
  assert (Hid : get (stored "1" 100) "_id" = VStr "1") by compute_done.
  assert (Hdesc : isString (get changes "description")) by (vm_compute; exact I).
  assert (Hts : get changes "timestamp" = VNull) by compute_done.
  assert (Hcat : isString (get changes "category")) by (vm_compute; exact I).
  destruct (edit_with_null_timestamp_hides_record KExpense "1" changes 0 1000
              shelf KExpense 0 [stored "0" 50] [stored "2" 150] (stored "1" 100)
              eq_refl eq_refl eq_refl H1 H2 Hid Hdesc Hts Hcat)
    as (Hr & l & Hl & Habs).
  split; [reflexivity |]. split; [exact H1 |]. split; [exact H2 |].
  split; [exact Hts |]. split; [exact Hr |].
  exists l. exact (conj Hl Habs).
Defined.

(** X16: an edit that carries a timestamp moves the record to it.  On a
    driver that carries the update out, when the identifier names a stored
    record and [changes] give strings as description and category and a
    number [t] as timestamp, every window holding [t] returns a record
    with that identifier, with the description, timestamp and category of
    [changes] and with the account, amount, currency and availableCredit
    the record had. *)
Theorem edited_record_is_found (which : Kind) (id : string) (changes : Obj)
    (s e t : Z) (st : State) (k : Kind) (h : nat) (l1 l2 : list Obj) (d : Obj) :
  variable which st = Model k h ->
  fault (mongoose st) = None ->
  Mongoose.docs k (mongoose st) = l1 ++ d :: l2 ->
  absent id l1 ->
  get d "_id" = VStr id ->
  isString (get changes "description") ->
  get changes "timestamp" = VNum t ->
  isString (get changes "category") ->
  (s ≤ t < e)%Z ->
  ∃ l d',
    (getBetween which s e (editById which id changes st).2).1 =
      Normal (Resolved (Some l))
    ∧ d' ∈ l
    ∧ get d' "_id" = VStr id
    ∧ get d' "description" = get changes "description"
    ∧ get d' "timestamp" = VNum t
    ∧ get d' "category" = get changes "category"
    ∧ get d' "account" = get d "account"
    ∧ get d' "amount" = get d "amount"
    ∧ get d' "currency" = get d "currency"
    ∧ get d' "availableCredit" = get d "availableCredit".
Proof.
  intros Hv Hf Hdocs Hl1 Hd Hdesc Hts Hcat Hwin.
  destruct (editById_effect which id changes st k h Hv Hf)
    as (_ & Hv' & Hf' & Hafter).
  set (st' := (editById which id changes st).2) in *.
  rewrite Hdocs, (updateFirst_first id _ d l1 l2 Hl1 Hd) in Hafter.
  set (d1 := Mongoose.serialize (updateDocument changes) ∪ d) in *.
  exists (found s e (Mongoose.docs k (mongoose st'))), (Mongoose.select selected d1).
  split; [by apply getBetween_found with h |].
  split.
  { apply elem_of_found. exists d1. split; [done |].
    split; [rewrite Hafter; apply elem_of_app; right; left |].
    unfold inWindow, timestampOf. subst d1.
    by rewrite get_updated, decide_True, Hts by compute_done. }
  subst d1.
  assert (Hd' : Mongoose.onWire (get changes "description") = get changes "description")
    by (by destruct (get changes "description")).
  assert (Hc' : Mongoose.onWire (get changes "category") = get changes "category")
    by (by destruct (get changes "category")).
  repeat split; rewrite get_select, decide_True by compute_done;
    rewrite get_updated;
    first [ rewrite decide_True by compute_done
          | rewrite decide_False by compute_done ];
    rewrite ?Hd', ?Hc', ?Hts; done.
Qed.

Lemma edited_record_is_found_witness :
  let changes : Obj :=
    <["description" := VStr "tea"]>
      (<["timestamp" := VNum 700]> (<["category" := VStr "drinks"]> ∅)) in
  absent "1" [stored "0" 50]
  ∧ get changes "timestamp" = VNum 700
  ∧ ∃ l d',
      (getExpenses 600 800 (editExpense "1" changes shelf).2).1 =
        Normal (Resolved (Some l))
      ∧ d' ∈ l
      ∧ get d' "_id" = VStr "1"
      ∧ get d' "timestamp" = VNum 700
      ∧ get d' "category" = VStr "drinks".
Proof.
  intros changes.
  assert (H1 : absent "1" [stored "0" 50]) by (unfold absent; compute_done).
  assert (Hid : get (stored "1" 100) "_id" = VStr "1") by compute_done.
  assert (Hdesc : isString (get changes "description")) by (vm_compute; exact I).
  assert (Hts : get changes "timestamp" = VNum 700) by compute_done.
  assert (Hcat : isString (get changes "category")) by (vm_compute; exact I).
  destruct (edited_record_is_found KExpense "1" changes 600 800 700
              shelf KExpense 0 [stored "0" 50] [stored "2" 150] (stored "1" 100)
              eq_refl eq_refl eq_refl H1 Hid Hdesc Hts Hcat ltac:(lia))
    as (l & d' & Hl & Hin & Hi & _ & Ht & Hc & _).
  split; [exact H1 |]. split; [exact Hts |].
  exists l, d'.
  split; [exact Hl |]. split; [exact Hin |]. split; [exact Hi |].
  split; [exact Ht |]. etrans; [exact Hc | compute_done].
Defined.

(** ** The two kinds keep apart *)

(** X17: in a store whose two variables hold the models of their own
    collections, an operation on expenses leaves the income collection,
    and what [getIncome] returns, exactly as they were, and the other way
    round; this holds whether the driver carries the operation out or
    reports an error. *)
Theorem kinds_keep_apart (a : Action) (k : Kind) (s e : Z) (st : State)
    (h h' : nat) :
  Expense st = Model KExpense h ->
  Income st = Model KIncome h' ->
  kindOf a = Some k ->
  Mongoose.docs (otherKind k) (mongoose (step st a)) =
    Mongoose.docs (otherKind k) (mongoose st)
  ∧ (getBetween (otherKind k) s e (step st a)).1 =
      (getBetween (otherKind k) s e st).1.
Proof.
  intros He Hi Ha.
  destruct a; simpl in Ha; try discriminate; injection Ha as <-; simpl;
    unfold_store; open_state st; subst; simpl;
    destruct fault0 as [err |]; simpl; try destruct (truthy err) eqn:Herr;
    simpl; rewrite ?Herr; split; reflexivity.
Qed.

Lemma kinds_keep_apart_witness :
  Expense shelf = Model KExpense 0
  ∧ Income shelf = Model KIncome 0
  ∧ incomeDocs (mongoose (removeExpense "1" shelf).2) = incomeDocs (mongoose shelf)
  ∧ (getIncome 0 1000 (removeExpense "1" shelf).2).1 = (getIncome 0 1000 shelf).1.
Proof.
  destruct (kinds_keep_apart (ARemoveExpense "1") KExpense 0 1000 shelf 0 0
              eq_refl eq_refl eq_refl) as [Hd Hg].
  exact (conj eq_refl (conj eq_refl (conj Hd Hg))).
Defined.

(** ** Windows *)

Lemma inWindow_split (a b c : Z) (d : Obj) :
  (a ≤ b ≤ c)%Z ->
  (inWindow a c d <-> inWindow a b d ∨ inWindow b c d)
  ∧ ¬ (inWindow a b d ∧ inWindow b c d).
Proof. unfold inWindow. destruct (timestampOf d); [lia | tauto]. Qed.

Lemma filter_window_split (a b c : Z) (l : list Obj) :
  (a ≤ b ≤ c)%Z ->
  filter (inWindow a c) l ≡ₚ filter (inWindow a b) l ++ filter (inWindow b c) l.
Proof.
  intros Habc. induction l as [| d l IH]; [done |].
  destruct (inWindow_split a b c d Habc) as [Hiff Hex].
  rewrite !filter_cons.
  destruct (decide (inWindow a c d)), (decide (inWindow a b d)),
    (decide (inWindow b c d)); try tauto; simpl.
  - by rewrite IH.
  - rewrite IH. apply Permutation_middle.
Qed.

Lemma filter_window_empty (s e : Z) (l : list Obj) :
  (e ≤ s)%Z -> filter (inWindow s e) l = [].
Proof.
  intros Hes. induction l as [| d l IH]; [done |].
  rewrite filter_cons, IH. rewrite decide_False; [done |].
  unfold inWindow. destruct (timestampOf d); [lia | tauto].
Qed.

(** X18: half-open windows tile.  For bounds [a <= b <= c], on a driver
    that reports no error, the records of the window from [a] to [c] are
    the records of the window from [a] to [b] together with those of the
    window from [b] to [c], each record in exactly one of the two; and a
    window whose upper bound does not exceed its lower bound resolves with
    the empty list. *)
Theorem adjacent_windows_tile (which : Kind) (a b c : Z) (st : State)
    (k : Kind) (h : nat) :
  variable which st = Model k h ->
  fault (mongoose st) = None ->
  (a ≤ b ≤ c)%Z ->
  (∃ whole left right,
     (getBetween which a c st).1 = Normal (Resolved (Some whole))
     ∧ (getBetween which a b st).1 = Normal (Resolved (Some left))
     ∧ (getBetween which b c st).1 = Normal (Resolved (Some right))
     ∧ whole ≡ₚ left ++ right
     ∧ Forall (inWindow a b) left
     ∧ Forall (fun d => ¬ inWindow a b d) right)
  ∧ (getBetween which c a st).1 = Normal (Resolved (Some [])).
Proof.
  intros Hv Hf Habc. split.
  - exists (found a c (Mongoose.docs k (mongoose st))),
      (found a b (Mongoose.docs k (mongoose st))),
      (found b c (Mongoose.docs k (mongoose st))).
    rewrite !(getBetween_found which _ _ st k h Hv Hf).
    repeat split.
    + rewrite !query_window, <- fmap_app. by rewrite filter_window_split.
    + apply query_inWindow.
    + eapply Forall_impl; [apply query_inWindow |].
      intros d Hbc Hab. by apply (inWindow_split a b c d Habc).
  - rewrite (getBetween_found which _ _ st k h Hv Hf).
    repeat f_equal. apply Permutation_nil_r.
    rewrite query_window, filter_window_empty by lia. done.
Qed.

Lemma adjacent_windows_tile_witness :
  variable KExpense shelf = Model KExpense 0
  ∧ fault (mongoose shelf) = None
  ∧ (0 ≤ 100 ≤ 1000)%Z
  ∧ (getExpenses 1000 0 shelf).1 = Normal (Resolved (Some []))
  ∧ ∃ whole left right,
      (getExpenses 0 1000 shelf).1 = Normal (Resolved (Some whole))
      ∧ (getExpenses 0 100 shelf).1 = Normal (Resolved (Some left))
      ∧ (getExpenses 100 1000 shelf).1 = Normal (Resolved (Some right))
      ∧ whole ≡ₚ left ++ right.
Proof.
  assert (Hb : (0 ≤ 100 ≤ 1000)%Z) by lia.
  destruct (adjacent_windows_tile KExpense 0 100 1000 shelf KExpense 0
              eq_refl eq_refl Hb)
    as [(whole & left & right & Hw & Hl & Hr & Hp & _) Hempty].
  split; [reflexivity |]. split; [reflexivity |]. split; [exact Hb |].
  split; [exact Hempty |].
  exists whole, left, right. exact (conj Hw (conj Hl (conj Hr Hp))).
Defined.

(** ** Setting up twice *)

(** X19: the setup works once per process.  Take any store whose variable
    [Expense] already holds a model and that is not connected (the first
    connection failed, is still pending, or was closed by [disconnect()]),
    on a driver whose models do not answer a call with a model.  Then
    [connect()] either throws, or returns leaving [Expense] without a
    model, after which the promise of [getExpenses] is rejected with a
    [TypeError] for every window, and no [find] reaches the driver. *)
Theorem second_setup_disables_expenses (st : State) (k : Kind) (h : nat)
    (s e : Z) :
  Expense st = Model k h ->
  isConnected st = false ->
  (∀ b, modelCall (mongoose st) k (length (handles (mongoose st))) = Some b ->
        ¬ isModel b) ->
  let st' := (connect st).2 in
  (∃ v, (connect st).1 = Throw v)
  ∨ ((connect st).1 = Normal tt
     ∧ ¬ isModel (Expense st')
     ∧ ∃ message,
         getExpenses s e st' = (Normal (Rejected (TypeError message)), st')).
Proof.
  intros He Hnot Hcall st'.
  destruct (connect_again_loses_model st k h He Hnot Hcall) as [Hthrow | [Hret Hm]].
  - by left.
  - right. split; [exact Hret |]. split; [exact Hm |].
    by apply not_model_breaks_queries.
Qed.

Lemma second_setup_disables_expenses_witness :
  let st := (disconnect shelf).2 in
  Expense st = Model KExpense 0
  ∧ isConnected st = false
  ∧ (connect st).1 = Normal tt
  ∧ ∃ message,
      getExpenses 0 1000 (connect st).2 =
        (Normal (Rejected (TypeError message)), (connect st).2).
Proof.
  intros st.
  assert (He : Expense st = Model KExpense 0) by compute_done.
  assert (Hnot : isConnected st = false) by compute_done.
  assert (Hcall : ∀ b, modelCall (mongoose st) KExpense
                         (length (handles (mongoose st))) = Some b ->
                       ¬ isModel b).
  { intros b Hb. cbv in Hb. injection Hb as <-. simpl. tauto. }
  destruct (second_setup_disables_expenses st KExpense 0 0 1000
              He Hnot Hcall) as [[v Hthrow] | (Hret & _ & Hget)].
  - exfalso. revert Hthrow. vm_compute. discriminate.
  - exact (conj He (conj Hnot (conj Hret Hget))).
Defined.

(** ** What a store that never connected emits *)

Lemma wired_driver (f : Driver -> Driver) :
  (∀ d, Forall (fun hd => Forall (eq OnConnect) (openListeners hd)
                          ∧ Forall (eq OnError) (errorListeners hd)) (handles d) ->
        Forall (fun hd => Forall (eq OnConnect) (openListeners hd)
                          ∧ Forall (eq OnError) (errorListeners hd))
               (handles (f d))) ->
  preserves wired (Mongoose.driver f).
Proof.
  intros Hf st Hst. unfold Mongoose.driver, modify, wired in *.
  destruct st as [? ? ? ? ? d ?]; simpl in *. by apply Hf.
Qed.

Lemma wired_state (f : State -> State) :
  (∀ st, mongoose (f st) = mongoose st) -> preserves wired (modify f).
Proof.
  intros Hf. apply preserves_modify. intros st. unfold wired. by rewrite Hf.
Qed.

Lemma wired_log (c : Call) : preserves wired (Mongoose.driver (Mongoose.log c)).
Proof. apply wired_driver. by intros []. Qed.

Lemma wired_setDocs (k : Kind) (f : Driver -> list Obj) :
  preserves wired (Mongoose.driver (fun d => Mongoose.setDocs k (f d) d)).
Proof. apply wired_driver. intros []; by destruct k. Qed.

Lemma wired_setNextId (n : nat) :
  preserves wired (Mongoose.driver (Mongoose.setNextId n)).
Proof. apply wired_driver. by intros []. Qed.

Lemma wired_emit (e : Event) : preserves wired (emit e).
Proof. apply wired_state. by intros []. Qed.

Lemma wired_createConnection (uri : string) :
  preserves wired (Mongoose.createConnection uri).
Proof.
  unfold Mongoose.createConnection.
  apply preserves_bind; [apply preserves_getState |]. intros st.
  apply preserves_bind; [| intros; apply preserves_ret].
  apply wired_driver. intros [] Hh; simpl in *.
  apply Forall_app. split; [done |]. by repeat constructor.
Qed.

Lemma wired_on_open (h : nat) :
  preserves wired (Mongoose.on h "open" OnConnect).
Proof.
  unfold Mongoose.on. apply wired_driver. intros [] Hh; simpl in *.
  apply Forall_alter; [done |]. intros hd _ [Ho He]. simpl.
  split; [apply Forall_app; by split; [| repeat constructor] | done].
Qed.

Lemma wired_on_error (h : nat) :
  preserves wired (Mongoose.on h "error" OnError).
Proof.
  unfold Mongoose.on. apply wired_driver. intros [] Hh; simpl in *.
  apply Forall_alter; [done |]. intros hd _ [Ho He]. simpl.
  split; [done | apply Forall_app; by split; [| repeat constructor]].
Qed.

Lemma wired_readyState (n : Z) (h : nat) :
  preserves wired
    (Mongoose.driver (fun d =>
       Mongoose.setHandles (alter (setReadyState n) h (handles d)) d)).
Proof.
  apply wired_driver. intros [] Hh; simpl in *.
  apply Forall_alter; [done |]. by intros hd _ [Ho He].
Qed.

Lemma wired_close (h : nat) : preserves wired (Mongoose.close h).
Proof.
  unfold Mongoose.close. apply wired_driver. intros [] Hh; simpl in *.
  apply Forall_alter; [done |]. by intros hd _ [Ho He].
Qed.

Create HintDb wiring.

#[local] Hint Resolve preserves_ret preserves_throw preserves_getState
  wired_log wired_setDocs wired_setNextId wired_emit wired_createConnection
  wired_on_open wired_on_error wired_close : wiring.

Ltac wiring :=
  unfold connect, disconnect, putExpense, putIncome, getExpenses, getIncome,
    removeExpense, removeIncome, editExpense, editIncome, _onConnect,
    _onDisconnect, _onError, Mongoose.find, Mongoose.remove, Mongoose.update,
    Mongoose.construct, Mongoose.save, Mongoose.apply, Mongoose.method;
  repeat first
    [ solve [auto with wiring]
    | solve [apply wired_state; by intros []]
    | apply preserves_newPromise
    | match goal with
      | |- preserves _ (match ?x with _ => _ end) => destruct x
      | |- preserves _ (let '(_, _) := ?x in _) => destruct x
      end
    | apply preserves_bind; [| intros ?] ].

Lemma wired_step (a : Action) (st : State) :
  wired st -> wired (step st a).
Proof.
  intros Hst. destruct a; simpl;
    match goal with
    | |- wired (?c st).2 =>
        cut (preserves wired c); [intros Hp; by apply Hp |]
    end;
    try (unfold opened, failed;
         apply preserves_bind; [apply wired_readyState |]; intros _;
         apply preserves_bind; [apply preserves_getState |]; intros s st' Hst';
         rewrite fire_emits; by destruct st');
    wiring.
Qed.

Lemma failed_emits_errors (h : nat) (v : JSValue) (st : State) :
  wired st ->
  ∃ errors,
    emitted (failed h v st).2 = emitted st ++ errors
    ∧ Forall isErrorEvent errors.
Proof.
  intros Hw. unfold failed, Mongoose.driver, modify, getState. unfold bind. simpl.
  rewrite fire_emits. eexists. split; [by destruct st |].
  unfold wired in Hw. destruct st as [? ? ? ? ? [] ?]; simpl in *.
  rewrite list_lookup_alter, decide_True by done.
  destruct (handles0 !! h) as [hd |] eqn:Hh; simpl; [| constructor].
  rewrite Forall_forall in Hw.
  destruct (Hw hd (list_elem_of_lookup_2 _ _ _ Hh)) as [_ He].
  apply Forall_fmap. eapply Forall_impl; [exact He |]. by intros l <-.
Qed.

(** X20: a store whose connection never opened emits nothing but [error]
    events.  On a driver whose handles do not start out open, from any
    state in which the listeners are the ones [connect] binds, over every
    history without an opening, the events emitted are [error] events
    only: no [connect], and no [disconnect] whatever the number of
    [disconnect()] calls. *)
Theorem never_connected_emits_errors_only (history : list Action) (st : State) :
  neverOpened st ->
  wired st ->
  Forall (fun a => ¬ isOpened a) history ->
  ∃ errors,
    emitted (run st history) = emitted st ++ errors
    ∧ Forall isErrorEvent errors.
Proof.
  intros Hn Hw Hh. revert st Hn Hw.
  induction Hh as [| a history Ha _ IH]; intros st Hn Hw.
  - exists []. by rewrite app_nil_r.
  - simpl.
    assert (Hstep : ∃ errors, emitted (step st a) = emitted st ++ errors
                              ∧ Forall isErrorEvent errors).
    { destruct a; simpl in Ha; try tauto;
        try (exists []; rewrite app_nil_r; split;
             [by apply emitted_silent | constructor]).
      - simpl. rewrite (disconnect_not_connected st)
          by (by apply neverOpened_not_connected).
        exists []. by rewrite app_nil_r.
      - by apply failed_emits_errors. }
    destruct Hstep as (e1 & He1 & Hok1).
    destruct (IH (step st a) (neverOpened_step a st Ha Hn) (wired_step a st Hw))
      as (e2 & He2 & Hok2).
    exists (e1 ++ e2). rewrite He2, He1, <- app_assoc.
    split; [done |]. apply Forall_app. by split.
Qed.

Lemma never_connected_emits_errors_only_witness :
  let history :=
    [ADisconnect; AFailed 0 (VStr "ECONNREFUSED"); AConnect; ADisconnect;
     AFailed 1 VNull; AGetExpenses 0 10] in
  neverOpened (connecting callableModels)
  ∧ wired (connecting callableModels)
  ∧ Forall (fun a => ¬ isOpened a) history
  ∧ ∃ errors,
      emitted (run (connecting callableModels) history) =
        emitted (connecting callableModels) ++ errors
      ∧ Forall isErrorEvent errors.
Proof.
  intros history.
  assert (Hn : neverOpened (connecting callableModels))
    by (split; [discriminate | vm_compute; repeat constructor; discriminate]).
  assert (Hw : wired (connecting callableModels))
    by (vm_compute; repeat constructor).
  assert (Hh : Forall (fun a => ¬ isOpened a) history)
    by (repeat constructor; simpl; tauto).
  exact (conj Hn (conj Hw (conj Hh
           (never_connected_emits_errors_only history _ Hn Hw Hh)))).
Defined.
